(** * The request layer of the search widget, embedded in Rocq

    Sources embedded here:
    - [RequestService] ([fetch], [fetchJSON], [fetchJSONP], [_clearFunction],
      [_removeScript]) from [app/scripts/controllers/SearchController.ts];
    - [ElasticSearchService] ([search], [getDefaultConfig]);
    - [SearchController] (the constructor and its [keydown] listener, with
      the handlers of the result and of the failure of a search), same file
      as [RequestService].

    JavaScript values are trees ([JsVal]); the two kinds of objects the
    services mutate (request options and header objects) live in a store and
    are passed by reference, as in the source.  A promise is followed up to
    the end of its executor, and from there by the handler of the one event
    that settles it.

    What the embedding leaves to the platform: numbers are integers
    (statements about their text take them to be safe integers), the
    properties of objects are own and enumerable, a header object does not
    shadow a method of [Object.prototype] (a body may: see [fetch]),
    strings are sequences of bytes, the elements of a document that carry
    an id are children of [<head>], and [open], [setRequestHeader] and
    [send] do not throw. *)

From Stdlib Require Import ZArith Ascii String DecimalString.
From stdpp Require Import base option list strings gmap.

Local Open Scope string_scope.
Set Warnings "-register-all".
#[local] Arguments String.append !_ _ / : simpl nomatch.

(** ** JavaScript values *)

Module Js.

(** Numbers are integer-valued; objects list their own enumerable
    properties in enumeration order, arrays their elements. *)
Inductive JsVal : Type :=
| VUndefined
| VNull
| VBool (b : bool)
| VNum (n : Z)
| VStr (s : string)
| VObj (props : list (string * JsVal))
| VArr (items : list JsVal).

(** The decimal digits of an integer, which is how JavaScript prints a
    number below 10^21 in size; from there on it prints an exponent, and
    beyond 2^53 a Number does not hold every integer. *)
Definition Z_to_string (n : Z) : string := NilZero.string_of_int (Z.to_int n).

(** [typeof v], as the string the operator yields. *)
Definition typeof (v : JsVal) : string :=
  match v with
  | VUndefined => "undefined"
  | VNull => "object"
  | VBool _ => "boolean"
  | VNum _ => "number"
  | VStr _ => "string"
  | VObj _ | VArr _ => "object"
  end.

(** ToBoolean: what [if (v)] and [!v] test. *)
Definition truthy (v : JsVal) : bool :=
  match v with
  | VUndefined | VNull => false
  | VBool b => b
  | VNum n => negb (n =? 0)%Z
  | VStr s => negb (String.eqb s "")
  | VObj _ | VArr _ => true
  end.

(** ToString, as applied by a template literal [`${v}`]. *)
Fixpoint ToString (v : JsVal) : string :=
  match v with
  | VUndefined => "undefined"
  | VNull => "null"
  | VBool true => "true"
  | VBool false => "false"
  | VNum n => Z_to_string n
  | VStr s => s
  | VObj _ => "[object Object]"
  | VArr items =>
      String.concat ","
        (List.map (fun x => match x with
                            | VUndefined | VNull => ""
                            | _ => ToString x
                            end) items)
  end.

(** The keys and values a [for (key in v)] loop visits and
    [v.hasOwnProperty(key)] keeps. *)
Fixpoint indexed_from (i : Z) (items : list JsVal) : list (string * JsVal) :=
  match items with
  | [] => []
  | x :: rest => (Z_to_string i, x) :: indexed_from (i + 1) rest
  end.

Definition own_properties (v : JsVal) : list (string * JsVal) :=
  match v with
  | VObj props => props
  | VArr items => indexed_from 0 items
  | _ => []
  end.

(** *** JSON.stringify *)

Definition dquote : ascii := ascii_of_nat 34.
Definition backslash : ascii := ascii_of_nat 92.

Definition hex_digit (n : nat) : ascii :=
  match String.get n "0123456789abcdef" with
  | Some c => c
  | None => "0"%char
  end.

Definition quote_char (c : ascii) : string :=
  let n := nat_of_ascii c in
  if Nat.eqb n 34 then String backslash (String dquote "")
  else if Nat.eqb n 92 then String backslash (String backslash "")
  else if Nat.eqb n 8 then String backslash "b"
  else if Nat.eqb n 9 then String backslash "t"
  else if Nat.eqb n 10 then String backslash "n"
  else if Nat.eqb n 12 then String backslash "f"
  else if Nat.eqb n 13 then String backslash "r"
  else if Nat.ltb n 32 then
    String backslash ("u00" +:+ String (hex_digit (n / 16)) (String (hex_digit (n mod 16)) ""))
  else String c "".

Fixpoint quote_chars (s : string) : string :=
  match s with
  | EmptyString => ""
  | String c rest => quote_char c +:+ quote_chars rest
  end.

Definition QuoteJSONString (s : string) : string :=
  String dquote (quote_chars s +:+ String dquote "").

(** [None] stands for the result [undefined]. *)
Fixpoint SerializeJSONProperty (v : JsVal) : option string :=
  match v with
  | VUndefined => None
  | VNull => Some "null"
  | VBool true => Some "true"
  | VBool false => Some "false"
  | VNum n => Some (Z_to_string n)
  | VStr s => Some (QuoteJSONString s)
  | VObj props =>
      Some ("{" +:+
            String.concat ","
              (List.flat_map
                 (fun kv => match kv with
                            | (k, x) =>
                                match SerializeJSONProperty x with
                                | Some s => [QuoteJSONString k +:+ ":" +:+ s]
                                | None => []
                                end
                            end) props)
            +:+ "}")
  | VArr items =>
      Some ("[" +:+
            String.concat ","
              (List.map
                 (fun x => match SerializeJSONProperty x with
                           | Some s => s
                           | None => "null"
                           end) items)
            +:+ "]")
  end.

Definition JSON_stringify (v : JsVal) : JsVal :=
  match SerializeJSONProperty v with
  | Some s => VStr s
  | None => VUndefined
  end.

(** [s.indexOf(c)] for a one-character needle: the first position, or -1. *)
Fixpoint indexOf_from (i : Z) (c : ascii) (s : string) : Z :=
  match s with
  | EmptyString => (-1)%Z
  | String d rest => if Ascii.eqb d c then i else indexOf_from (i + 1) c rest
  end.

Definition indexOf (s : string) (c : ascii) : Z := indexOf_from 0 c s.

(** Property read and write on an object kept as an ordered list of own
    properties: a write to a new key adds the key last. *)
Fixpoint get_property (key : string) (props : list (string * JsVal)) : JsVal :=
  match props with
  | [] => VUndefined
  | (k, v) :: rest => if String.eqb k key then v else get_property key rest
  end.

Fixpoint set_property (key : string) (v : JsVal) (props : list (string * JsVal))
  : list (string * JsVal) :=
  match props with
  | [] => [(key, v)]
  | (k, w) :: rest =>
      if String.eqb k key then (k, v) :: rest
      else (k, w) :: set_property key v rest
  end.

(** Errors and other rejection reasons. *)
Inductive ErrorKind := Error | TypeError | SyntaxError.

Inductive Reason : Type :=
| Thrown (kind : ErrorKind) (message : string)
| Value (v : JsVal).

Inductive Settled : Type :=
| Resolved (v : JsVal)
| Rejected (e : Reason).

End Js.

Import Js.


(** ** The store: request options and header objects, held by reference *)

Inductive Method := GET | POST | PUT | DELETE | HEAD | OPTIONS.

#[global] Instance Method_eq_dec : EqDecision Method.
Proof. solve_decision. Defined.

Record Credentials := {
  username : string;
  password : option string
}.

(** [IRequestOptions]: an absent property reads as [undefined]; [headers]
    is absent or refers to a header object. *)
Record IRequestOptions := {
  method : option Method;
  headers : option positive;
  body : JsVal;
  credentials : option Credentials
}.

(** The object literal [{}]. *)
Definition no_options : IRequestOptions :=
  {| method := None; headers := None; body := VUndefined; credentials := None |}.

Record Store := {
  request_options : gmap positive IRequestOptions;
  header_objects : gmap positive (list (string * JsVal))
}.

Definition empty_store : Store :=
  {| request_options := ∅; header_objects := ∅ |}.

Definition new_options (o : IRequestOptions) (σ : Store) : positive * Store :=
  let l := fresh (dom (request_options σ)) in
  (l, {| request_options := <[l := o]> (request_options σ);
         header_objects := header_objects σ |}).

Definition new_headers (h : list (string * JsVal)) (σ : Store) : positive * Store :=
  let l := fresh (dom (header_objects σ)) in
  (l, {| request_options := request_options σ;
         header_objects := <[l := h]> (header_objects σ) |}).

(** [options.body = v] and [options.headers = h] on the object at [l]. *)
Definition assign_body (l : positive) (v : JsVal) (σ : Store) : Store :=
  {| request_options :=
       alter (fun o => {| method := method o; headers := headers o;
                          body := v; credentials := credentials o |})
             l (request_options σ);
     header_objects := header_objects σ |}.

Definition assign_headers (l h : positive) (σ : Store) : Store :=
  {| request_options :=
       alter (fun o => {| method := method o; headers := Some h;
                          body := body o; credentials := credentials o |})
             l (request_options σ);
     header_objects := header_objects σ |}.

(** [headers[key] = v] on the header object at [h]. *)
Definition assign_header (h : positive) (key : string) (v : JsVal) (σ : Store) : Store :=
  {| request_options := request_options σ;
     header_objects := alter (set_property key v) h (header_objects σ) |}.

(** ** RequestService.fetch *)

(** What the code does with its [XMLHttpRequest]. *)
Inductive XhrCall : Type :=
| xhr_open (m : Method) (url : string) (user : option (string * option string))
| xhr_setRequestHeader (name : string) (value : JsVal)
| xhr_send (payload : JsVal).

(** The state in which the executor of the promise leaves things: the
    store, the calls made on the request object, and the promise, settled
    already ([Some]) or waiting for an event of the request ([None]). *)
Record FetchRun := {
  store_after : Store;
  xhr_calls : list XhrCall;
  promise : option Settled
}.

Definition is_GET_or_DELETE (m : option Method) : bool :=
  match m with
  | Some GET | Some DELETE => true
  | _ => false
  end.

Definition is_HEAD (m : option Method) : bool :=
  match m with
  | Some HEAD => true
  | _ => false
  end.

(** The loop building [uri]: the accumulator is [(uri, separator)]. *)
Definition append_parameter (acc : string * string) (kv : string * JsVal)
  : string * string :=
  (fst acc +:+ snd acc +:+ fst kv +:+ "=" +:+ ToString (snd kv), "&").

Definition body_parameters (b : JsVal) : string :=
  fst (fold_left append_parameter (own_properties b) ("", "")).

Definition append_to_url (url uri : string) : string :=
  url +:+ (if (indexOf url "?" =? -1)%Z then "?" else "&") +:+ uri.

Definition GET_body_message : string :=
  "Non object like body not allowed for GET requests. The body has to be an object so the properties will be appended as a GET parameter to the url.".

Definition HEAD_body_message : string := "Body not allowed for HEAD requests".

(** [options.body.hasOwnProperty(key)] looks [hasOwnProperty] up on the body
    itself: where the body has an own property of that name, the call is a
    call of that property's value. No value of [JsVal] is a function, so the
    call throws a TypeError (the wording is the engine's) at the first key
    of the loop. An array has no such own property. *)
Definition shadows_hasOwnProperty (b : JsVal) : bool :=
  match b with
  | VObj props => existsb (fun kv => String.eqb (fst kv) "hasOwnProperty") props
  | _ => false
  end.

Definition hasOwnProperty_message : string :=
  "options.body.hasOwnProperty is not a function".

Definition header_calls (hs : list (string * JsVal)) : list XhrCall :=
  List.map (fun kv => xhr_setRequestHeader (fst kv) (snd kv)) hs.

Definition open_call (opts : IRequestOptions) (url : string) : XhrCall :=
  let m := match method opts with Some m => m | None => GET end in
  match credentials opts with
  | Some c =>
      if negb (String.eqb (username c) "")
      then xhr_open m url (Some (username c, password c))
      else xhr_open m url None
  | None => xhr_open m url None
  end.

Definition rejected (σ : Store) (kind : ErrorKind) (message : string) : FetchRun :=
  {| store_after := σ; xhr_calls := [];
     promise := Some (Rejected (Thrown kind message)) |}.

(** [typeof options.body === 'undefined' ? null : options.body] *)
Definition sent_payload (b : JsVal) : JsVal :=
  if String.eqb (typeof b) "undefined" then VNull else b.

(** [open], one [setRequestHeader] for each key of the header object [hs]
    (when [typeof headers === 'object']), then [send]. *)
Definition request_calls (opts : IRequestOptions) (url : string)
    (hs : option (list (string * JsVal))) : list XhrCall :=
  open_call opts url
    :: match hs with Some hs => header_calls hs | None => [] end
    ++ [xhr_send (sent_payload (body opts))].

(** The part of [fetch] after the body has been looked at: the HEAD check,
    then [open], the headers and [send].  [hs] is the header object the
    local [headers] refers to, if any. *)
Definition fetch_send (url : string) (o : positive)
    (hs : option (list (string * JsVal))) (σ : Store) : option FetchRun :=
  opts ← request_options σ !! o;
  if is_HEAD (method opts) && truthy (body opts)
  then Some (rejected σ TypeError HEAD_body_message)
  else Some {| store_after := σ;
               xhr_calls := request_calls opts url hs;
               promise := None |}.

(** [fetch(url, options)], up to the end of the promise's executor.  The
    result is [None] only on a store in which [options] or its [headers]
    refer to nothing, which no JavaScript heap does.  An exception thrown
    in the executor rejects the promise: here, the one of a body that has a
    property [hasOwnProperty] of its own.  The request object takes every
    method, url and header it is given, and a header object has no
    property [hasOwnProperty] of its own. *)
Definition fetch (url : string) (options : option positive) (σ : Store)
  : option FetchRun :=
  let '(o, σ) := match options with
                 | Some o => (o, σ)
                 | None => new_options no_options σ
                 end in
  opts ← request_options σ !! o;
  hs ← match headers opts with
       | Some h => Some <$> header_objects σ !! h
       | None => Some None
       end;
  if is_GET_or_DELETE (method opts) && truthy (body opts) then
    if String.eqb (typeof (body opts)) "object" then
      if shadows_hasOwnProperty (body opts)
      then Some (rejected σ TypeError hasOwnProperty_message)
      else fetch_send (append_to_url url (body_parameters (body opts))) o hs σ
    else Some (rejected σ TypeError GET_body_message)
  else if negb (String.eqb (typeof (body opts)) "string") then
    fetch_send url o hs (assign_body o (JSON_stringify (body opts)) σ)
  else fetch_send url o hs σ.

(** The events of the request object and what each handler does to the
    promise. [response] is [None] where the request object has no
    [response] property. *)
Inductive XhrEvent : Type :=
| onload (status : Z) (responseText : string) (response : option JsVal)
| onerror (error : JsVal)
| onabort
| ontimeout.

Definition fetch_handler (ev : XhrEvent) : Settled :=
  match ev with
  | onload status responseText response =>
      if (status >=? 400)%Z || (status =? 0)%Z
      then Rejected (Thrown Error responseText)
      else Resolved (match response with
                     | Some r => r
                     | None => VStr responseText
                     end)
  | onerror error => Rejected (Value error)
  | onabort => Rejected (Thrown TypeError "Network request aborted")
  | ontimeout => Rejected (Thrown TypeError "Network request timed out")
  end.

(** The promise once the request has produced [ev]: a promise settled by
    the executor stays as it is. *)
Definition fetch_outcome (run : FetchRun) (ev : XhrEvent) : Settled :=
  match promise run with
  | Some s => s
  | None => fetch_handler ev
  end.

(** ** RequestService.fetchJSON *)

(** The synchronous part: the defaults written into [options], then
    [fetch]. *)
Definition fetchJSON (url : string) (options : option positive) (σ : Store)
  : option FetchRun :=
  let '(o, σ) := match options with
                 | Some o => (o, σ)
                 | None => new_options no_options σ
                 end in
  opts ← request_options σ !! o;
  let '(h, σ) := match headers opts with
                 | Some h => (h, σ)
                 | None => let '(h, σ) := new_headers [] σ in
                           (h, assign_headers o h σ)
                 end in
  hs ← header_objects σ !! h;
  let σ := if negb (truthy (get_property "Content-Type" hs))
           then assign_header h "Content-Type" (VStr "application/json") σ
           else σ in
  fetch url (Some o) σ.

Section JSON_parse.

(** [JSON.parse] is the platform's: [None] where it throws. *)
Variable JSON_parse : string → option JsVal.

(** [.then(result => JSON.parse(result))] on the promise of [fetch]; the
    message of the SyntaxError is the engine's, for which [JSON.parse]
    stands. *)
Definition then_JSON_parse (s : Settled) : Settled :=
  match s with
  | Resolved result =>
      match JSON_parse (ToString result) with
      | Some v => Resolved v
      | None => Rejected (Thrown SyntaxError "JSON.parse")
      end
  | Rejected e => Rejected e
  end.

Definition fetchJSON_outcome (run : FetchRun) (ev : XhrEvent) : Settled :=
  then_JSON_parse (fetch_outcome run ev).

End JSON_parse.

(** ** ElasticSearchService *)

Record ElasticSearchService := { _searchURL : string }.

Definition initial_service : ElasticSearchService := {| _searchURL := "" |}.

Definition set_searchUrl (searchUrl : string) (svc : ElasticSearchService)
  : ElasticSearchService :=
  {| _searchURL := searchUrl |}.

Definition getDefaultConfig (searchTerm : string) : IRequestOptions :=
  {| method := Some POST;
     headers := None;
     body :=
       VObj [ ("query", VObj [ ("match", VObj [ ("url", VStr searchTerm) ]) ]);
              ("highlight",
               VObj [ ("pre_tags", VArr [ VStr "<strong>" ]);
                      ("post_tags", VArr [ VStr "</strong>" ]);
                      ("fields", VObj [ ("*", VObj []) ]);
                      ("require_field_match", VBool false) ]) ];
     credentials := None |}.

(** What a caller can put in the place of [customConfig], a parameter the
    source gives no type: a primitive value, or a reference to an object.
    An argument that is left out reads [undefined]. *)
Inductive Supplied : Type :=
| supplied_null
| supplied_boolean (b : bool)
| supplied_number (n : Z)
| supplied_string (s : string)
| supplied_object (o : positive).

(** [if (customConfig)] *)
Definition supplied_truthy (customConfig : option Supplied) : bool :=
  match customConfig with
  | None | Some supplied_null => false
  | Some (supplied_boolean b) => b
  | Some (supplied_number n) => negb (n =? 0)%Z
  | Some (supplied_string s) => negb (String.eqb s "")
  | Some (supplied_object _) => true
  end.

(** [search(searchTerm, customConfig)]. Given a primitive that is truthy,
    [fetchJSON] throws a TypeError at [options.headers = {}], before any
    request is made: there is no run then, as on a reference to nothing. *)
Definition search (svc : ElasticSearchService) (searchTerm : string)
    (customConfig : option Supplied) (σ : Store) : option FetchRun :=
  if supplied_truthy customConfig then
    match customConfig with
    | Some (supplied_object c) => fetchJSON (_searchURL svc) (Some c) σ
    | _ => None
    end
  else
    let '(defaultConfig, σ) := new_options (getDefaultConfig searchTerm) σ in
    fetchJSON (_searchURL svc) (Some defaultConfig) σ.

(** ** RequestService.fetchJSONP *)

Record IJSONOptions := {
  timeout : option Z;
  callback : option string;
  callbackFunction : option string
}.

(** What the call finds in the browser: the globals of the page, the
    children of [<head>], the handle the next [setTimeout] returns, and
    whether [delete window[name]] throws on this host. *)
Record Browser := {
  page_globals : gmap string JsVal;
  page_head : list (string * string);
  next_timer : positive;
  delete_throws : bool
}.

(** A global is the temporary callback of the call or a value of the
    page's. *)
Inductive Global : Type :=
| TemporaryCallback
| PageValue (v : JsVal).

(** A child of [<head>]: its [id] and its [src]. *)
Record Element := {
  element_id : string;
  element_src : string
}.

Inductive Cleanup := ClearTimeout | RemoveScript | ClearFunction.

#[global] Instance Cleanup_eq_dec : EqDecision Cleanup.
Proof. solve_decision. Defined.

(** The state one call lives in.  [cleanup_log] records each cleanup
    operation as it is entered, [uncaught] each exception that leaves a
    handler. *)
Record World := {
  window : gmap string Global;
  head : list Element;
  pending_timer : option (positive * Z);
  host_delete_throws : bool;
  timeoutId : option positive;
  jsonp_promise : option Settled;
  cleanup_log : list Cleanup;
  uncaught : list Reason
}.

Definition with_window (f : gmap string Global → gmap string Global) (w : World) : World :=
  {| window := f (window w); head := head w; pending_timer := pending_timer w;
     host_delete_throws := host_delete_throws w; timeoutId := timeoutId w;
     jsonp_promise := jsonp_promise w; cleanup_log := cleanup_log w;
     uncaught := uncaught w |}.

Definition with_head (f : list Element → list Element) (w : World) : World :=
  {| window := window w; head := f (head w); pending_timer := pending_timer w;
     host_delete_throws := host_delete_throws w; timeoutId := timeoutId w;
     jsonp_promise := jsonp_promise w; cleanup_log := cleanup_log w;
     uncaught := uncaught w |}.

Definition with_pending_timer (t : option (positive * Z)) (w : World) : World :=
  {| window := window w; head := head w; pending_timer := t;
     host_delete_throws := host_delete_throws w; timeoutId := timeoutId w;
     jsonp_promise := jsonp_promise w; cleanup_log := cleanup_log w;
     uncaught := uncaught w |}.

Definition with_timeoutId (t : option positive) (w : World) : World :=
  {| window := window w; head := head w; pending_timer := pending_timer w;
     host_delete_throws := host_delete_throws w; timeoutId := t;
     jsonp_promise := jsonp_promise w; cleanup_log := cleanup_log w;
     uncaught := uncaught w |}.

Definition with_promise (p : option Settled) (w : World) : World :=
  {| window := window w; head := head w; pending_timer := pending_timer w;
     host_delete_throws := host_delete_throws w; timeoutId := timeoutId w;
     jsonp_promise := p; cleanup_log := cleanup_log w;
     uncaught := uncaught w |}.

Definition logged (c : Cleanup) (w : World) : World :=
  {| window := window w; head := head w; pending_timer := pending_timer w;
     host_delete_throws := host_delete_throws w; timeoutId := timeoutId w;
     jsonp_promise := jsonp_promise w; cleanup_log := cleanup_log w ++ [c];
     uncaught := uncaught w |}.

Definition with_uncaught (e : Reason) (w : World) : World :=
  {| window := window w; head := head w; pending_timer := pending_timer w;
     host_delete_throws := host_delete_throws w; timeoutId := timeoutId w;
     jsonp_promise := jsonp_promise w; cleanup_log := cleanup_log w;
     uncaught := uncaught w ++ [e] |}.

(** Statements run on the world and complete normally or throw. *)
Inductive Completion : Type :=
| Normal
| Throw (e : Reason).

Definition Statement : Type := World → World * Completion.

Definition seq (a b : Statement) : Statement :=
  fun w => match a w with
           | (w', Normal) => b w'
           | (w', Throw e) => (w', Throw e)
           end.

Definition try_catch (a : Statement) (handler : Statement) : Statement :=
  fun w => match a w with
           | (w', Normal) => (w', Normal)
           | (w', Throw _) => handler w'
           end.

Declare Scope statement_scope.
Delimit Scope statement_scope with stmt.
Bind Scope statement_scope with Statement.
Notation "a ;; b" := (seq a b)
  (at level 100, b at level 200, right associativity) : statement_scope.

(** [resolve] and [reject] settle a pending promise and do nothing to a
    settled one. *)
Definition settle (s : Settled) : Statement :=
  fun w => (match jsonp_promise w with
            | None => with_promise (Some s) w
            | Some _ => w
            end, Normal).

Definition clearTimeout (id : positive) : Statement :=
  fun w => (match pending_timer w with
            | Some (id', _) =>
                if Pos.eqb id' id then with_pending_timer None (logged ClearTimeout w)
                else logged ClearTimeout w
            | None => logged ClearTimeout w
            end, Normal).

(** [document.getElementById(id)], on a document in which the elements
    that carry an id are children of [<head>]: the position of the first
    child with that id. *)
Fixpoint getElementById (id : string) (els : list Element) : option nat :=
  match els with
  | [] => None
  | e :: rest =>
      if String.eqb (element_id e) id then Some 0%nat
      else S <$> getElementById id rest
  end.

Definition removeChild_null_message : string :=
  "Failed to execute 'removeChild' on 'Node': parameter 1 is not of type 'Node'.".

(** [_removeScript(scriptId)]: [removeChild(null)] throws. *)
Definition _removeScript (scriptId : string) : Statement :=
  fun w =>
    let w := logged RemoveScript w in
    match getElementById scriptId (head w) with
    | Some i => (with_head (delete i) w, Normal)
    | None => (w, Throw (Thrown TypeError removeChild_null_message))
    end.

Definition delete_global (name : string) : Statement :=
  fun w =>
    if host_delete_throws w
    then (w, Throw (Thrown TypeError "Object doesn't support this action"))
    else (with_window (delete name) w, Normal).

Definition assign_global (name : string) (g : Global) : Statement :=
  fun w => (with_window (insert name g) w, Normal).

(** [_clearFunction(functionName)] *)
Definition _clearFunction (functionName : string) : Statement :=
  fun w =>
    try_catch (delete_global functionName)
              (assign_global functionName (PageValue VUndefined))
              (logged ClearFunction w).

Section call.

(** The constants the two handlers close over. *)
Variables (_url callbackFn callbackFnName : string).

Definition scriptId : string := callbackFn +:+ "_" +:+ callbackFnName.

(** The temporary callback [window[callbackFnName]]. *)
Definition temporary_callback (response : JsVal) : Statement :=
  (settle (Resolved response) ;;
   (fun w => match timeoutId w with
             | Some id => clearTimeout id w
             | None => (w, Normal)
             end) ;;
   _removeScript scriptId ;;
   _clearFunction callbackFnName)%stmt.

Definition timeout_handler : Statement :=
  (settle (Rejected (Thrown Error ("JSONP request to " +:+ _url +:+ " timed out"))) ;;
   _clearFunction callbackFnName ;;
   _removeScript scriptId)%stmt.

(** What can happen after the call returned: a script of the page calls
    the global [name]; the timer with handle [id] fires; other code of the
    page removes the first child of [<head>] with the given id. *)
Inductive Event : Type :=
| script_calls (name : string) (response : JsVal)
| timer_fires (id : positive)
| page_removes (id : string).

Definition handle (body : Statement) (w : World) : World :=
  match body w with
  | (w', Normal) => w'
  | (w', Throw e) => with_uncaught e w'
  end.

Definition step (w : World) (ev : Event) : World :=
  match ev with
  | script_calls name response =>
      match window w !! name with
      | Some TemporaryCallback => handle (temporary_callback response) w
      | _ => w
      end
  | timer_fires id =>
      match pending_timer w with
      | Some (id', _) =>
          if Pos.eqb id' id
          then handle timeout_handler (with_pending_timer None w)
          else w
      | None => w
      end
  | page_removes id =>
      match getElementById id (head w) with
      | Some i => with_head (delete i) w
      | None => w
      end
  end.

Definition run (evs : list Event) (w : World) : World := fold_left step evs w.

End call.

Definition or_default {A} (present : A → bool) (o : option A) (d : A) : A :=
  match o with
  | Some a => if present a then a else d
  | None => d
  end.

(** The three constants at the head of [fetchJSONP]; [now] is [Date.now()]
    and [random] is [Math.ceil(Math.random() * 100000)]. *)
Definition jsonp_timeout (options : option IJSONOptions) : Z :=
  or_default (fun t => negb (t =? 0)%Z) (options ≫= timeout) 5000%Z.

Definition jsonp_callbackFn (options : option IJSONOptions) : string :=
  or_default (fun s => negb (String.eqb s "")) (options ≫= callback) "callback".

Definition jsonp_callbackFnName (options : option IJSONOptions) (now random : Z)
  : string :=
  or_default (fun s => negb (String.eqb s "")) (options ≫= callbackFunction)
             ("jsonp_" +:+ Z_to_string now +:+ "_" +:+ Z_to_string random).

(** [fetchJSONP(_url, options)] up to the end of the promise's executor:
    the callback is registered, the script injected, the timer started. *)
Definition fetchJSONP (_url : string) (options : option IJSONOptions)
    (now random : Z) (b : Browser) : World :=
  let timeout := jsonp_timeout options in
  let callbackFn := jsonp_callbackFn options in
  let callbackFnName := jsonp_callbackFnName options now random in
  let url := _url +:+ (if (indexOf _url "?" =? -1)%Z then "?" else "&") in
  let jsonpScript :=
    {| element_id := scriptId callbackFn callbackFnName;
       element_src := url +:+ callbackFn +:+ "=" +:+ callbackFnName |} in
  {| window := <[callbackFnName := TemporaryCallback]> (PageValue <$> page_globals b);
     head := List.map (fun e => {| element_id := fst e; element_src := snd e |})
                      (page_head b) ++ [jsonpScript];
     pending_timer := Some (next_timer b, timeout);
     host_delete_throws := delete_throws b;
     timeoutId := Some (next_timer b);
     jsonp_promise := None;
     cleanup_log := [];
     uncaught := [] |}.

(** ** SearchController *)

Definition requestURL : string :=
  "https://1hy5arpx48.execute-api.us-east-1.amazonaws.com/prod/moebelat/_search".

(** The controller with what it reads and writes: the value of the input
    element, the [innerHTML] of the result element (the markup it came
    with, or was given last), its search service, and the lines written
    with [console.log], each with its arguments. *)
Record SearchController := {
  _searchInput_value : string;
  _searchResult_innerHTML : string;
  _elasticSearchService : ElasticSearchService;
  console : list (list JsVal)
}.

(** The constructor. *)
Definition new_SearchController (value innerHTML : string) : SearchController :=
  {| _searchInput_value := value;
     _searchResult_innerHTML := innerHTML;
     _elasticSearchService := set_searchUrl requestURL initial_service;
     console := [] |}.

Definition assign_innerHTML (html : string) (c : SearchController) : SearchController :=
  {| _searchInput_value := _searchInput_value c;
     _searchResult_innerHTML := html;
     _elasticSearchService := _elasticSearchService c;
     console := console c |}.

Definition console_log (arguments : list JsVal) (c : SearchController) : SearchController :=
  {| _searchInput_value := _searchInput_value c;
     _searchResult_innerHTML := _searchResult_innerHTML c;
     _elasticSearchService := _elasticSearchService c;
     console := console c ++ [arguments] |}.

(** The listener up to the call of [search]: [None] where the key starts
    no search. *)
Definition keydown (c : SearchController) (keyCode : Z) (σ : Store)
  : option FetchRun :=
  if (keyCode =? 13)%Z
  then search (_elasticSearchService c) (_searchInput_value c) None σ
  else None.

(** An expression returns a value or throws. *)
Inductive Evaluated : Type :=
| Returns (v : JsVal)
| Throws (e : Reason).

(** The pairs [(key, v[key])] a [for (key in v)] loop visits: those of an
    object or array, and the characters of a string by position, for a
    string of ASCII characters (one character is then one unit of the
    string as JavaScript counts them). *)
Definition for_in (v : JsVal) : list (string * JsVal) :=
  match v with
  | VStr s =>
      indexed_from 0
        (List.map (fun c => VStr (String c "")) (list_ascii_of_string s))
  | _ => own_properties v
  end.

(** The numeric value of a loop bound [x.length], for the values whose
    conversion needs no parsing of text: outer [None] where the bound is a
    string or an array, inner [None] for NaN. *)
Definition bound_number (len : JsVal) : option (option Z) :=
  match len with
  | VNum n => Some (Some n)
  | VUndefined | VObj _ => Some None
  | VNull => Some (Some 0%Z)
  | VBool b => Some (Some (if b then 1%Z else 0%Z))
  | VStr _ | VArr _ => None
  end.

(** The values [index] takes in [for (index = 0; index < len; index++)]. *)
Definition indices (len : JsVal) : option (list Z) :=
  match bound_number len with
  | Some (Some n) => Some (seqZ 0 n)
  | Some None => Some []
  | None => None
  end.

Section SearchController.

(** [template] is the function of [lib/Template]; [cannot_read v name] is
    the message of the TypeError the engine throws for reading the
    property [name] of [v], which is [undefined] or [null]. *)
Variable template : string → JsVal → string.
Variable cannot_read : JsVal → string → string.

(** [v.name] and [v[name]], for the names the controller reads ([hits],
    [total], [length], [highlight], [message]), none of which a prototype
    defines except [length]. *)
Definition member (v : JsVal) (name : string) : Evaluated :=
  match v with
  | VUndefined | VNull => Throws (Thrown TypeError (cannot_read v name))
  | VObj props => Returns (get_property name props)
  | VArr items =>
      if String.eqb name "length" then Returns (VNum (Z.of_nat (List.length items)))
      else Returns VUndefined
  | VStr s =>
      if String.eqb name "length" then Returns (VNum (Z.of_nat (String.length s)))
      else Returns VUndefined
  | VBool _ | VNum _ => Returns VUndefined
  end.

(** [v[index]] for an index that is a number, zero or more. *)
Definition element (v : JsVal) (index : Z) : Evaluated :=
  match v with
  | VUndefined | VNull => Throws (Thrown TypeError (cannot_read v (Z_to_string index)))
  | VObj props => Returns (get_property (Z_to_string index) props)
  | VArr items =>
      Returns (match items !! Z.to_nat index with
               | Some x => x
               | None => VUndefined
               end)
  | VStr s =>
      Returns (match String.get (Z.to_nat index) s with
               | Some c => VStr (String c "")
               | None => VUndefined
               end)
  | VBool _ | VNum _ => Returns VUndefined
  end.

(** The inner loop, for one hit. *)
Definition log_highlight (hit : JsVal) (c : SearchController)
  : SearchController * Completion :=
  match member hit "highlight" with
  | Throws e => (c, Throw e)
  | Returns highlight =>
      (fold_left (fun c kv => console_log [VStr (fst kv); snd kv] c)
                 (for_in highlight) c,
       Normal)
  end.

(** The outer loop over [searchresult.hits.hits], here [hits]. *)
Fixpoint log_hits (hits : JsVal) (todo : list Z) (c : SearchController)
  : SearchController * Completion :=
  match todo with
  | [] => (c, Normal)
  | index :: rest =>
      match element hits index with
      | Throws e => (c, Throw e)
      | Returns hit =>
          match log_highlight hit c with
          | (c', Normal) => log_hits hits rest c'
          | (c', Throw e) => (c', Throw e)
          end
      end
  end.

(** The handler of a result. [None] where the loop bound is outside
    [bound_number]. *)
Definition on_result (searchresult : JsVal) (c : SearchController)
  : option (SearchController * Completion) :=
  match member searchresult "hits" with
  | Throws e => Some (c, Throw e)
  | Returns hits =>
      match member hits "total" with
      | Throws e => Some (c, Throw e)
      | Returns total =>
          let c :=
            assign_innerHTML
              (template (_searchResult_innerHTML c) (VObj [("count", total)])) c in
          match member hits "hits" with
          | Throws e => Some (c, Throw e)
          | Returns hits_hits =>
              match member hits_hits "length" with
              | Throws e => Some (c, Throw e)
              | Returns len =>
                  todo ← indices len;
                  Some (log_hits hits_hits todo c)
              end
          end
      end
  end.

(** [error.message] *)
Definition message_of (error : Reason) : Evaluated :=
  match error with
  | Thrown _ message => Returns (VStr message)
  | Value v => member v "message"
  end.

(** The handler of [catch]. *)
Definition on_error (error : Reason) (c : SearchController)
  : SearchController * Completion :=
  match message_of error with
  | Throws e => (c, Throw e)
  | Returns message =>
      (console_log
         [VStr ("An error occured during the elastic search service: "
                +:+ ToString message)] c,
       Normal)
  end.

(** [.then(on_result).catch(on_error)] on the settled promise of [search];
    a final [Throw] is a rejection nobody handles. *)
Definition on_settled (s : Settled) (c : SearchController)
  : option (SearchController * Completion) :=
  match s with
  | Resolved searchresult =>
      r ← on_result searchresult c;
      match r with
      | (c', Normal) => Some (c', Normal)
      | (c', Throw e) => Some (on_error e c')
      end
  | Rejected error => Some (on_error error c)
  end.

End SearchController.

(** ** Reading the claims: definitions the statements below use *)

(** The value is an object ([null] is not one). *)
Definition is_object (v : JsVal) : bool :=
  match v with
  | VObj _ | VArr _ => true
  | _ => false
  end.

(** The numbers the embedding speaks for: the safe integers, which a
    Number holds exactly and JavaScript prints in plain decimal. A value is
    [plain] when all its numbers are such and its arrays are shorter than
    2^32; outside, [ToString] and [JSON_stringify] are not the engine's. *)
Definition safe_integer (n : Z) : bool := (Z.abs n <=? 9007199254740991)%Z.

Fixpoint plain (v : JsVal) : bool :=
  match v with
  | VNum n => safe_integer n
  | VObj props => forallb (fun kv => plain (snd kv)) props
  | VArr items =>
      (Z.of_nat (List.length items) <? 4294967296)%Z && forallb plain items
  | _ => true
  end.



(** A name between double quotes. *)
Definition in_quotes (s : string) : string :=
  String dquote (s +:+ String dquote "").

(** The JSON text of the query for a term: the term is quoted as JSON
    quotes a string, with its escapes. *)
Definition query_text (term : string) : string :=
  "{" +:+ in_quotes "query" +:+ ":{"
      +:+ in_quotes "match" +:+ ":{"
      +:+ in_quotes "url" +:+ ":" +:+ QuoteJSONString term +:+ "}},"
      +:+ in_quotes "highlight" +:+ ":{"
      +:+ in_quotes "pre_tags" +:+ ":[" +:+ in_quotes "<strong>" +:+ "],"
      +:+ in_quotes "post_tags" +:+ ":[" +:+ in_quotes "</strong>" +:+ "],"
      +:+ in_quotes "fields" +:+ ":{" +:+ in_quotes "*" +:+ ":{}},"
      +:+ in_quotes "require_field_match" +:+ ":false}}".

(** The string has an occurrence of the character. *)
Fixpoint contains (c : ascii) (s : string) : bool :=
  match s with
  | EmptyString => false
  | String d rest => Ascii.eqb d c || contains c rest
  end.


(** [options] refers to the object [opts] of the store, whose [headers],
    when present, refer to a header object of the store. *)
Definition refers_to (σ : Store) (options : positive) (opts : IRequestOptions)
  : Prop :=
  request_options σ !! options = Some opts ∧
  match headers opts with
  | Some h => is_Some (header_objects σ !! h)
  | None => True
  end.

(** The header object the local [headers] of [fetch] refers to. *)
Definition headers_of (σ : Store) (opts : IRequestOptions)
  : option (list (string * JsVal)) :=
  match headers opts with
  | Some h => header_objects σ !! h
  | None => None
  end.

(** The value of [options.body] once [fetch] has looked at a body it does
    not turn into parameters: a string stays, anything else is serialised. *)
Definition encoded_body (b : JsVal) : JsVal :=
  if String.eqb (typeof b) "string" then b else JSON_stringify b.

(** The header object as [fetchJSON] leaves it. *)
Definition with_content_type (hs : list (string * JsVal)) : list (string * JsVal) :=
  if negb (truthy (get_property "Content-Type" hs))
  then set_property "Content-Type" (VStr "application/json") hs
  else hs.

Definition with_headers (h : positive) (opts : IRequestOptions) : IRequestOptions :=
  {| method := method opts; headers := Some h;
     body := body opts; credentials := credentials opts |}.

Definition with_body (b : JsVal) (opts : IRequestOptions) : IRequestOptions :=
  {| method := method opts; headers := headers opts;
     body := b; credentials := credentials opts |}.

(** The headers the caller supplied: those of its header object, none
    where [options.headers] is absent. *)
Definition caller_headers (σ : Store) (opts : IRequestOptions)
  : list (string * JsVal) :=
  match headers_of σ opts with
  | Some hs => hs
  | None => []
  end.

(** Header names compared as HTTP compares them, ignoring letter case. *)
Definition lower_ascii (c : ascii) : ascii :=
  let n := nat_of_ascii c in
  if Nat.leb 65 n && Nat.leb n 90 then ascii_of_nat (n + 32) else c.

Fixpoint lower (s : string) : string :=
  match s with
  | EmptyString => EmptyString
  | String c rest => String (lower_ascii c) (lower rest)
  end.

Definition same_header_name (a b : string) : bool :=
  String.eqb (lower a) (lower b).

(** The values a request sets under a header name, ignoring case. *)
Definition header_values (name : string) (calls : list XhrCall) : list JsVal :=
  List.flat_map (fun c => match c with
                          | xhr_setRequestHeader k v =>
                              if same_header_name k name then [v] else []
                          | _ => []
                          end) calls.

(** How often a cleanup operation was entered. *)
Definition times (c : Cleanup) (w : World) : nat :=
  List.count_occ Cleanup_eq_dec (cleanup_log w) c.

(** The event sets the call's cleanup off: the temporary callback is
    called, or the call's timer fires. *)
Definition triggers (callbackFnName : string) (timer : positive) (ev : Event) : bool :=
  match ev with
  | script_calls name _ => String.eqb name callbackFnName
  | timer_fires id => Pos.eqb id timer
  | page_removes _ => false
  end.

(** The event is the page taking an element out of [<head>] itself. *)
Definition removes (ev : Event) : bool :=
  match ev with
  | page_removes _ => true
  | _ => false
  end.

(** The controller with more lines on its console. *)
Definition with_lines (lines : list (list JsVal)) (c : SearchController)
  : SearchController :=
  {| _searchInput_value := _searchInput_value c;
     _searchResult_innerHTML := _searchResult_innerHTML c;
     _elasticSearchService := _elasticSearchService c;
     console := console c ++ lines |}.

(** The lines one hit gives: its highlighted fields, each with its
    fragments. *)
Definition highlight_lines (hit : JsVal) : list (list JsVal) :=
  match hit with
  | VObj props =>
      List.map (fun kv => [VStr (fst kv); snd kv])
               (own_properties (get_property "highlight" props))
  | _ => []
  end.

(** A hit as a search response has it: an object whose [highlight], where
    it has one, is not a string. *)
Definition is_hit (v : JsVal) : bool :=
  match v with
  | VObj props =>
      negb (String.eqb (typeof (get_property "highlight" props)) "string")
  | _ => false
  end.

(** The children of [<head>] whose id is not the given one. *)
Definition elements_except (id : string) (els : list Element) : list Element :=
  List.filter (fun e => negb (String.eqb (element_id e) id)) els.

(** Nothing of the call is left to run. *)
Definition spent (w : World) : Prop :=
  pending_timer w = None ∧ ∀ name, window w !! name ≠ Some TemporaryCallback.

(** *** Inputs the statements are tried on *)

Definition store_of (opts : IRequestOptions) (hs : list (string * JsVal)) : Store :=
  {| request_options := {[ 1%positive := opts ]};
     header_objects := {[ 1%positive := hs ]} |}.

(** Two options objects with one header object between them. *)
Definition shared_store : Store :=
  {| request_options :=
       {[ 1%positive := {| method := Some POST; headers := Some 1%positive;
                           body := VStr "a"; credentials := None |};
          2%positive := {| method := Some PUT; headers := Some 1%positive;
                           body := VStr "b"; credentials := None |} ]};
     header_objects := {[ 1%positive := [("Accept", VStr "text/html")] ]} |}.

Definition empty_browser : Browser :=
  {| page_globals := ∅; page_head := []; next_timer := 1%positive;
     delete_throws := false |}.

(** [fetchJSONP("https://e/api", {callbackFunction: 'cb'})] on an empty
    page, and the events that follow it. *)
Definition cb_options : IJSONOptions :=
  {| timeout := None; callback := None; callbackFunction := Some "cb" |}.

Definition cb_started : World :=
  fetchJSONP "https://e/api" (Some cb_options) 0 0 empty_browser.

Definition cb_run (evs : list Event) : World :=
  run "https://e/api" (jsonp_callbackFn (Some cb_options))
      (jsonp_callbackFnName (Some cb_options) 0 0) evs cb_started.

(** ** The value model at work *)

Example ToString_array :
  ToString (VArr [VNum (-12); VNull; VStr "x"; VNum 0; VObj []])
  = "-12,,x,0,[object Object]".
Proof. reflexivity. Qed.

Example JSON_stringify_skips_undefined :
  JSON_stringify
    (VObj [("a", VArr [VNum 1; VUndefined]); ("b", VUndefined); ("c", VBool false)])
  = VStr ("{" +:+ QuoteJSONString "a" +:+ ":[1,null],"
              +:+ QuoteJSONString "c" +:+ ":false}").
Proof. reflexivity. Qed.

Example QuoteJSONString_escapes :
  QuoteJSONString (String dquote (String backslash (String (ascii_of_nat 10) "z")))
  = String dquote
      (String backslash
         (String dquote
            (String backslash
               (String backslash
                  (String backslash ("nz" +:+ String dquote "")))))).
Proof. reflexivity. Qed.

Example body_parameters_array :
  body_parameters (VArr [VStr "a"; VNum 2]) = "0=a&1=2".
Proof. reflexivity. Qed.

(** ** Strings *)


Lemma append_nil_l (s : string) : "" +:+ s = s.
Proof. reflexivity. Qed.

Lemma append_cons (c : ascii) (s t : string) :
  String c s +:+ t = String c (s +:+ t).
Proof. reflexivity. Qed.

Lemma append_assoc (s t u : string) : (s +:+ t) +:+ u = s +:+ (t +:+ u).
Proof. induction s as [|c s IH]; [reflexivity | simpl; f_equal; exact IH]. Qed.

Lemma indexOf_from_range (i : Z) (c : ascii) (s : string) :
  indexOf_from i c s = (-1)%Z ∨ (i ≤ indexOf_from i c s)%Z.
Proof.
  revert i; induction s as [|d s IH]; intros i; simpl.
  - now left.
  - destruct (Ascii.eqb d c); [right; lia|].
    destruct (IH (i + 1)%Z) as [H | H]; [now left | right; lia].
Qed.

Lemma indexOf_from_contains (i : Z) (c : ascii) (s : string) :
  (0 ≤ i)%Z →
  (indexOf_from i c s =? -1)%Z = negb (contains c s).
Proof.
  revert i; induction s as [|d s IH]; intros i Hi; simpl.
  - reflexivity.
  - destruct (Ascii.eqb d c); simpl.
    + apply Z.eqb_neq. lia.
    + apply IH. lia.
Qed.

Lemma indexOf_contains (c : ascii) (s : string) :
  (indexOf s c =? -1)%Z = negb (contains c s).
Proof. apply indexOf_from_contains. lia. Qed.

Lemma contains_get (c : ascii) (s : string) :
  contains c s = true ↔ ∃ n, String.get n s = Some c.
Proof.
  induction s as [|d s IH]; simpl.
  - split; [discriminate | intros [n Hn]; discriminate].
  - rewrite orb_true_iff, IH, Ascii.eqb_eq. split.
    + intros [-> | [n Hn]]; [now exists 0%nat | now exists (S n)].
    + intros [[|n] Hn]; [left; congruence | right; now exists n].
Qed.

(** ** The query string of a GET or DELETE body *)






(** ** fetch, case by case *)

Lemma typeof_object (b : JsVal) :
  truthy b = true → String.eqb (typeof b) "object" = is_object b.
Proof. destruct b; simpl; try reflexivity; discriminate. Qed.

Lemma fetch_send_eq (url : string) (o : positive) hs (σ : Store)
    (opts : IRequestOptions) :
  request_options σ !! o = Some opts →
  fetch_send url o hs σ
  = Some (if is_HEAD (method opts) && truthy (body opts)
          then rejected σ TypeError HEAD_body_message
          else {| store_after := σ;
                  xhr_calls := request_calls opts url hs;
                  promise := None |}).
Proof.
  intros H. unfold fetch_send. rewrite H. simpl.
  destruct (is_HEAD (method opts) && truthy (body opts)); reflexivity.
Qed.

Lemma fetch_headers_eq (σ : Store) (o : positive) (opts : IRequestOptions) :
  refers_to σ o opts →
  match headers opts with
  | Some h => Some <$> header_objects σ !! h
  | None => Some None
  end = Some (headers_of σ opts).
Proof.
  intros [_ H]. unfold headers_of. destruct (headers opts) as [h|]; [|reflexivity].
  destruct H as [hs ->]. reflexivity.
Qed.

Lemma lookup_assign_body (σ : Store) (o : positive) (v : JsVal)
    (opts : IRequestOptions) :
  request_options σ !! o = Some opts →
  request_options (assign_body o v σ) !! o
  = Some (with_body v opts).
Proof. intros H. unfold assign_body; simpl. now rewrite lookup_alter_eq, H. Qed.

(** The whole of [fetch] on a caller's options object, as one equation. *)
Lemma fetch_eq (url : string) (o : positive) (σ : Store) (opts : IRequestOptions) :
  refers_to σ o opts →
  fetch url (Some o) σ =
    if is_GET_or_DELETE (method opts) && truthy (body opts) then
      if is_object (body opts) then
        if shadows_hasOwnProperty (body opts)
        then Some (rejected σ TypeError hasOwnProperty_message)
        else
          Some {| store_after := σ;
                  xhr_calls :=
                    request_calls opts
                      (append_to_url url (body_parameters (body opts)))
                      (headers_of σ opts);
                  promise := None |}
      else Some (rejected σ TypeError GET_body_message)
    else
      let b := encoded_body (body opts) in
      let σ' := if String.eqb (typeof (body opts)) "string"
                then σ else assign_body o b σ in
      Some (if is_HEAD (method opts) && truthy b
            then rejected σ' TypeError HEAD_body_message
            else {| store_after := σ';
                    xhr_calls :=
                      request_calls (with_body b opts) url (headers_of σ opts);
                    promise := None |}).
Proof.
  intros Href. pose proof Href as [Hopts _].
  unfold fetch. rewrite Hopts. simpl. rewrite (fetch_headers_eq _ _ _ Href). simpl.
  destruct (is_GET_or_DELETE (method opts) && truthy (body opts)) eqn:Hg.
  - apply andb_true_iff in Hg as [Hm Ht]. rewrite (typeof_object _ Ht).
    destruct (is_object (body opts)); [|reflexivity].
    destruct (shadows_hasOwnProperty (body opts)); [reflexivity|].
    rewrite (fetch_send_eq _ _ _ _ _ Hopts).
    destruct (method opts) as [[]|]; try discriminate; reflexivity.
  - unfold encoded_body.
    destruct (String.eqb (typeof (body opts)) "string") eqn:Hs; simpl.
    + rewrite (fetch_send_eq _ _ _ _ _ Hopts).
      destruct opts; reflexivity.
    + rewrite (fetch_send_eq _ _ _ _ _ (lookup_assign_body _ _ _ _ Hopts)).
      reflexivity.
Qed.

Lemma open_call_method (opts : IRequestOptions) (url : string) (m : Method) :
  method opts = Some m → ∃ user, open_call opts url = xhr_open m url user.
Proof.
  intros H. unfold open_call. rewrite H.
  destruct (credentials opts) as [c|]; [|now exists None].
  destruct (negb (String.eqb (username c) "")); eauto.
Qed.


(** ** Body rules of fetch *)




(** C2, as the code has it. For GET and DELETE with a truthy body that is
    not an object (a non-empty string, a number other than zero, [true]),
    [fetch] rejects with the TypeError of the source at once: the store is
    untouched and nothing is called on the request. *)
Theorem fetch_truthy_non_object_body_rejected
    (url : string) (options : positive) (σ : Store)
    (opts : IRequestOptions) (m : Method) :
  refers_to σ options opts →
  method opts = Some m →
  m = GET ∨ m = DELETE →
  truthy (body opts) = true →
  is_object (body opts) = false →
  fetch url (Some options) σ
  = Some {| store_after := σ; xhr_calls := [];
            promise := Some (Rejected (Thrown TypeError GET_body_message)) |}.
Proof.
  intros Href Hm Hgd Ht Hobj.
  rewrite (fetch_eq _ _ _ _ Href).
  assert (is_GET_or_DELETE (method opts) = true) as ->
    by (rewrite Hm; destruct Hgd; subst m; reflexivity).
  rewrite Ht, Hobj. reflexivity.
Qed.

Lemma fetch_truthy_non_object_body_rejected_witness :
  fetch "https://e/search" (Some 1%positive)
    (store_of {| method := Some DELETE; headers := None; body := VNum 5;
                 credentials := None |} [])
  = Some {| store_after :=
              store_of {| method := Some DELETE; headers := None; body := VNum 5;
                          credentials := None |} [];
            xhr_calls := [];
            promise := Some (Rejected (Thrown TypeError GET_body_message)) |}.
Proof.
  apply (fetch_truthy_non_object_body_rejected "https://e/search" 1%positive _
           {| method := Some DELETE; headers := None; body := VNum 5;
              credentials := None |} DELETE).
  - split; [reflexivity | exact I].
  - reflexivity.
  - right; reflexivity.
  - reflexivity.
  - reflexivity.
Defined.

(** C2, as stated, fails: with method GET and the body [0], a number that
    is present and is not an object, nothing is rejected; the body becomes
    the string [0] and the request is opened and sent. *)
Lemma fetch_GET_zero_body_is_sent :
  is_object (VNum 0) = false ∧
  fetch "https://e/search" (Some 1%positive)
    (store_of {| method := Some GET; headers := None; body := VNum 0;
                 credentials := None |} [])
  = Some {| store_after :=
              store_of {| method := Some GET; headers := None;
                          body := VStr "0"; credentials := None |} [];
            xhr_calls := [xhr_open GET "https://e/search" None;
                          xhr_send (VStr "0")];
            promise := None |}.
Proof. split; [reflexivity | vm_compute; reflexivity]. Qed.

(** *** What JSON.stringify returns *)

Lemma Z_to_string_nonempty (n : Z) : Z_to_string n ≠ "".
Proof.
  unfold Z_to_string. destruct (Z.to_int n) as [d|d]; simpl.
  - destruct d; discriminate.
  - discriminate.
Qed.

Lemma SerializeJSONProperty_nonempty (v : JsVal) (s : string) :
  SerializeJSONProperty v = Some s → s ≠ "".
Proof.
  destruct v as [| |[]|n|t|props|items]; simpl; intros [= <-]; try discriminate.
  apply Z_to_string_nonempty.
Qed.

Lemma SerializeJSONProperty_undefined (v : JsVal) :
  SerializeJSONProperty v = None ↔ v = VUndefined.
Proof.
  split; [|intros ->; reflexivity].
  destruct v as [| |[]|n|t|props|items]; simpl; congruence.
Qed.

Lemma encoded_body_cases (b : JsVal) :
  (b = VUndefined ∧ encoded_body b = VUndefined) ∨
  (∃ s, b = VStr s ∧ encoded_body b = VStr s) ∨
  (∃ s, encoded_body b = VStr s ∧ s ≠ "").
Proof.
  destruct b as [| |[]|n|t|props|items]; unfold encoded_body, JSON_stringify; simpl.
  1: now left.
  5: right; left; eauto.
  all: right; right; eexists; split; [reflexivity|].
  all: try discriminate.
  apply Z_to_string_nonempty.
Qed.

Lemma truthy_string (s : string) : truthy (VStr s) = true ↔ s ≠ "".
Proof.
  simpl. rewrite negb_true_iff. apply String.eqb_neq.
Qed.

(** C3. With method HEAD, a body whose encoded value (the string itself, or
    the JSON text of anything else) is a non-empty string makes [fetch]
    reject with the TypeError [Body not allowed for HEAD requests] and call
    nothing on the request; that is the case of every body other than an
    absent one and the empty string.  With an absent or empty body the
    request is opened and sent. *)
Theorem fetch_HEAD_body
    (url : string) (options : positive) (σ : Store) (opts : IRequestOptions) :
  refers_to σ options opts →
  method opts = Some HEAD →
  (∀ s, encoded_body (body opts) = VStr s → s ≠ "" →
     ∃ run, fetch url (Some options) σ = Some run ∧
            xhr_calls run = [] ∧
            promise run
            = Some (Rejected (Thrown TypeError "Body not allowed for HEAD requests"))) ∧
  (body opts ≠ VUndefined → body opts ≠ VStr "" →
     ∃ s, encoded_body (body opts) = VStr s ∧ s ≠ "") ∧
  (body opts = VUndefined ∨ body opts = VStr "" →
     ∃ run user,
       fetch url (Some options) σ = Some run ∧
       promise run = None ∧
       xhr_calls run =
         xhr_open HEAD url user
         :: match headers_of σ opts with Some hs => header_calls hs | None => [] end
         ++ [xhr_send (if String.eqb (typeof (body opts)) "undefined"
                       then VNull else body opts)]).
Proof.
  intros Href Hm.
  pose proof (fetch_eq url _ _ _ Href) as Hf.
  rewrite Hm in Hf. cbn [is_GET_or_DELETE is_HEAD andb] in Hf.
  repeat split.
  - intros s Hs Hne. rewrite Hf, Hs.
    apply truthy_string in Hne. rewrite Hne.
    eexists; repeat split.
  - intros Hu He.
    destruct (encoded_body_cases (body opts)) as [[H _] | [(s & H & Hs) | H]].
    + contradiction.
    + exists s. split; [exact Hs|]. intros ->. contradiction.
    + exact H.
  - intros Hb.
    destruct (open_call_method opts url HEAD Hm) as [user Hu].
    rewrite Hf. exists
      {| store_after :=
           if String.eqb (typeof (body opts)) "string" then σ
           else assign_body options (encoded_body (body opts)) σ;
         xhr_calls :=
           request_calls (with_body (encoded_body (body opts)) opts) url
             (headers_of σ opts);
         promise := None |}, user.
    destruct Hb as [Hb | Hb]; rewrite Hb; cbn; repeat split;
      unfold request_calls; f_equal; exact Hu.
Qed.

Lemma fetch_HEAD_body_witness :
  ∃ run,
    fetch "https://e/doc" (Some 1%positive)
      (store_of {| method := Some HEAD; headers := None;
                   body := VObj [("a", VNum 1)]; credentials := None |} [])
    = Some run ∧
    xhr_calls run = [] ∧
    promise run
    = Some (Rejected (Thrown TypeError "Body not allowed for HEAD requests")).
Proof.
  eapply (proj1 (fetch_HEAD_body "https://e/doc" 1%positive
                   (store_of {| method := Some HEAD; headers := None;
                                body := VObj [("a", VNum 1)];
                                credentials := None |} [])
                   {| method := Some HEAD; headers := None;
                      body := VObj [("a", VNum 1)]; credentials := None |}
                   (conj eq_refl I) eq_refl)).
  - reflexivity.
  - discriminate.
Defined.

(** ** Outcome of the exchange *)

(** C5. Once the request of a [fetch] has loaded, the promise is rejected
    with an [Error] whose message is the response text exactly when the
    status is at least 400 or is 0; otherwise it is resolved with the
    response ([xhr.response] where the request object has one, else the
    response text). *)
Theorem fetch_onload_status
    (url : string) (options : option positive) (σ : Store) (run : FetchRun)
    (status : Z) (responseText : string) (response : option JsVal) :
  fetch url options σ = Some run →
  promise run = None →
  (fetch_outcome run (onload status responseText response)
   = Rejected (Thrown Error responseText)
   ↔ (400 ≤ status ∨ status = 0)%Z) ∧
  (¬ (400 ≤ status ∨ status = 0)%Z →
   fetch_outcome run (onload status responseText response)
   = Resolved (match response with
               | Some r => r
               | None => VStr responseText
               end)).
Proof.
  intros _ Hp. unfold fetch_outcome. rewrite Hp. simpl.
  destruct (status >=? 400)%Z eqn:H400; simpl.
  - split; [split; [intros _; left; lia | reflexivity] | intros H; exfalso; apply H; left; lia].
  - destruct (status =? 0)%Z eqn:H0.
    + split; [split; [intros _; right; lia | reflexivity] | intros H; exfalso; apply H; right; lia].
    + split; [split; [discriminate | lia] | reflexivity].
Qed.

Lemma fetch_onload_status_witness :
  ∃ run,
    fetch "https://e/search" (Some 1%positive)
      (store_of {| method := Some POST; headers := None;
                   body := VStr "q"; credentials := None |} [])
    = Some run ∧
    fetch_outcome run (onload 500 "Internal Error" (Some (VStr "Internal Error")))
    = Rejected (Thrown Error "Internal Error").
Proof.
  eexists. split; [reflexivity|].
  apply (proj1 (fetch_onload_status "https://e/search" (Some 1%positive)
                  (store_of {| method := Some POST; headers := None;
                               body := VStr "q"; credentials := None |} [])
                  _ 500 "Internal Error" (Some (VStr "Internal Error"))
                  eq_refl eq_refl)).
  left. lia.
Defined.

(** ** fetchJSON: the defaults, then fetch *)

Lemma get_set_property_eq (key : string) (v : JsVal) (hs : list (string * JsVal)) :
  get_property key (set_property key v hs) = v.
Proof.
  induction hs as [|[k w] hs IH]; simpl.
  - now rewrite String.eqb_refl.
  - destruct (String.eqb k key) eqn:E; simpl; rewrite E; [reflexivity | exact IH].
Qed.

Lemma get_set_property_ne (key k' : string) (v : JsVal) (hs : list (string * JsVal)) :
  k' ≠ key → get_property k' (set_property key v hs) = get_property k' hs.
Proof.
  intros Hne. induction hs as [|[k w] hs IH]; simpl.
  - apply String.eqb_neq in Hne. rewrite String.eqb_sym in Hne. now rewrite Hne.
  - destruct (String.eqb k key) eqn:E; simpl.
    + apply String.eqb_eq in E; subst k.
      assert (String.eqb key k' = false) as ->; [|reflexivity].
      apply String.eqb_neq. congruence.
    + destruct (String.eqb k k'); [reflexivity | exact IH].
Qed.

Lemma set_property_absent (key : string) (v : JsVal) (hs : list (string * JsVal)) :
  ¬ In key (List.map fst hs) →
  get_property key hs = VUndefined ∧
  set_property key v hs = (hs ++ [(key, v)])%list.
Proof.
  induction hs as [|[k w] hs IH]; simpl; intros Hn; [now split|].
  assert (String.eqb k key = false) as ->
    by (apply String.eqb_neq; intros ->; apply Hn; now left).
  destruct IH as [IH1 IH2]; [tauto|]. now rewrite IH1, IH2.
Qed.

Lemma with_headers_same (h : positive) (opts : IRequestOptions) :
  headers opts = Some h → with_headers h opts = opts.
Proof. destruct opts; simpl; intros ->; reflexivity. Qed.

(** [fetchJSON] on a caller's options object is [fetch] on a store in which
    the options refer to a header object holding the caller's headers with
    the default written in. *)
Lemma fetchJSON_eq (url : string) (o : positive) (σ : Store) (opts : IRequestOptions) :
  refers_to σ o opts →
  ∃ h σ',
    fetchJSON url (Some o) σ = fetch url (Some o) σ' ∧
    request_options σ' !! o = Some (with_headers h opts) ∧
    header_objects σ' !! h = Some (with_content_type (caller_headers σ opts)) ∧
    (∀ h0, headers opts = Some h0 → h = h0).
Proof.
  intros [Hopts Hh]. unfold fetchJSON, caller_headers, headers_of.
  rewrite Hopts. simpl.
  destruct (headers opts) as [h0|] eqn:Hh0.
  - destruct Hh as [hs Hhs]. rewrite Hhs. simpl.
    exists h0. eexists. split; [reflexivity|].
    rewrite (with_headers_same _ _ Hh0). unfold with_content_type.
    destruct (negb (truthy (get_property "Content-Type" hs))); simpl.
    + rewrite lookup_alter_eq, Hhs. repeat split; congruence.
    + repeat split; congruence.
  - simpl. rewrite lookup_insert_eq. simpl.
    exists (fresh (dom (header_objects σ))). eexists. split; [reflexivity|].
    simpl. rewrite !lookup_alter_eq, Hopts, lookup_insert_eq.
    repeat split. discriminate.
Qed.

Lemma refers_to_after_fetchJSON (σ' : Store) (o h : positive)
    (opts : IRequestOptions) (hs : list (string * JsVal)) :
  request_options σ' !! o = Some (with_headers h opts) →
  header_objects σ' !! h = Some hs →
  refers_to σ' o (with_headers h opts) ∧ headers_of σ' (with_headers h opts) = Some hs.
Proof.
  intros Ho Hs. unfold refers_to, headers_of. simpl. rewrite Hs. eauto.
Qed.

(** What every run of [fetch] on a caller's options looks like. *)
Lemma fetch_run (url : string) (o : positive) (σ : Store) (opts : IRequestOptions) :
  refers_to σ o opts →
  ∃ run,
    fetch url (Some o) σ = Some run ∧
    store_after run
    = (if (is_GET_or_DELETE (method opts) && truthy (body opts))
          || String.eqb (typeof (body opts)) "string"
       then σ else assign_body o (JSON_stringify (body opts)) σ) ∧
    (promise run = None →
     ∃ opened payload,
       xhr_calls run
       = opened :: match headers_of σ opts with
                   | Some hs => header_calls hs
                   | None => []
                   end ++ [xhr_send payload]).
Proof.
  intros Href. rewrite (fetch_eq _ _ _ _ Href).
  destruct (is_GET_or_DELETE (method opts) && truthy (body opts)); simpl.
  - destruct (is_object (body opts));
      [destruct (shadows_hasOwnProperty (body opts))|];
      eexists; repeat split; simpl; try discriminate.
    intros _. unfold request_calls. eauto.
  - unfold encoded_body.
    destruct (String.eqb (typeof (body opts)) "string");
      destruct (is_HEAD (method opts) && truthy _);
      eexists; repeat split; simpl; try discriminate;
      intros _; unfold request_calls; eauto.
Qed.

(** A failure of [fetch] passes through [fetchJSON] as it is; a body that
    does not parse fails with a [SyntaxError] of its own. *)
Lemma fetchJSON_outcome_cases (JSON_parse : string → option JsVal)
    (run : FetchRun) (ev : XhrEvent) :
  match fetch_outcome run ev with
  | Rejected e => fetchJSON_outcome JSON_parse run ev = Rejected e
  | Resolved result =>
      match JSON_parse (ToString result) with
      | Some v => fetchJSON_outcome JSON_parse run ev = Resolved v
      | None =>
          fetchJSON_outcome JSON_parse run ev
          = Rejected (Thrown SyntaxError "JSON.parse")
      end
  end.
Proof.
  unfold fetchJSON_outcome, then_JSON_parse.
  destruct (fetch_outcome run ev) as [result|e]; [|reflexivity].
  destruct (JSON_parse (ToString result)); reflexivity.
Qed.

(** C4, as the code has it. For every call of [fetchJSON] on a caller's
    options, a request that goes out sets exactly the caller's headers with
    the default written in: the key [Content-Type] holds
    [application/json] when the caller's headers hold no truthy value under
    that very key, a truthy value under that key stays as the caller gave
    it, and every other key is as it was. *)
Theorem fetchJSON_content_type
    (url : string) (options : positive) (σ : Store) (opts : IRequestOptions) :
  refers_to σ options opts →
  ∃ run,
    fetchJSON url (Some options) σ = Some run ∧
    (promise run = None →
     ∃ opened payload,
       xhr_calls run
       = opened :: header_calls (with_content_type (caller_headers σ opts))
                ++ [xhr_send payload]) ∧
    get_property "Content-Type" (with_content_type (caller_headers σ opts))
    = (if truthy (get_property "Content-Type" (caller_headers σ opts))
       then get_property "Content-Type" (caller_headers σ opts)
       else VStr "application/json") ∧
    (truthy (get_property "Content-Type" (caller_headers σ opts)) = true →
     with_content_type (caller_headers σ opts) = caller_headers σ opts) ∧
    (∀ key, key ≠ "Content-Type" →
     get_property key (with_content_type (caller_headers σ opts))
     = get_property key (caller_headers σ opts)).
Proof.
  intros Href.
  destruct (fetchJSON_eq url _ _ _ Href) as (h & σ' & Hf & Ho & Hs & _).
  destruct (refers_to_after_fetchJSON _ _ _ _ _ Ho Hs) as [Href' Hhs'].
  destruct (fetch_run url _ _ _ Href') as (run & Hrun & _ & Hcalls).
  exists run. rewrite Hf. split; [exact Hrun|].
  split; [now rewrite Hhs' in Hcalls|].
  unfold with_content_type.
  destruct (truthy (get_property "Content-Type" (caller_headers σ opts))) eqn:Ht;
    simpl; repeat split; try discriminate.
  - apply get_set_property_eq.
  - intros key Hk. now apply get_set_property_ne.
Qed.

Lemma fetchJSON_content_type_witness :
  ∃ run,
    fetchJSON "https://e/search" (Some 1%positive)
      (store_of {| method := Some POST; headers := Some 1%positive;
                   body := VStr "q"; credentials := None |}
                [("Accept", VStr "text/html")])
    = Some run ∧
    xhr_calls run
    = [xhr_open POST "https://e/search" None;
       xhr_setRequestHeader "Accept" (VStr "text/html");
       xhr_setRequestHeader "Content-Type" (VStr "application/json");
       xhr_send (VStr "q")].
Proof.
  destruct (fetchJSON_content_type "https://e/search" 1%positive
              (store_of {| method := Some POST; headers := Some 1%positive;
                           body := VStr "q"; credentials := None |}
                        [("Accept", VStr "text/html")])
              {| method := Some POST; headers := Some 1%positive;
                 body := VStr "q"; credentials := None |})
    as (run & Hrun & _).
  - split; [reflexivity | eexists; reflexivity].
  - exists run. split; [exact Hrun|].
    vm_compute in Hrun. injection Hrun as <-. reflexivity.
Defined.

(** C4, as stated, fails: the caller supplies [content-type: text/plain],
    which is a Content-Type header when names are compared ignoring case;
    [fetchJSON] still writes [Content-Type: application/json], and the
    request sets both values under that header name. *)
Lemma fetchJSON_lowercase_content_type :
  same_header_name "content-type" "Content-Type" = true ∧
  (xhr_calls <$>
     fetchJSON "https://e/search" (Some 1%positive)
       (store_of {| method := Some POST; headers := Some 1%positive;
                    body := VStr "q"; credentials := None |}
                 [("content-type", VStr "text/plain")]))
  = Some [xhr_open POST "https://e/search" None;
          xhr_setRequestHeader "content-type" (VStr "text/plain");
          xhr_setRequestHeader "Content-Type" (VStr "application/json");
          xhr_send (VStr "q")] ∧
  (header_values "Content-Type" <$>
     (xhr_calls <$>
        fetchJSON "https://e/search" (Some 1%positive)
          (store_of {| method := Some POST; headers := Some 1%positive;
                       body := VStr "q"; credentials := None |}
                    [("content-type", VStr "text/plain")])))
  = Some [VStr "text/plain"; VStr "application/json"].
Proof. repeat split; vm_compute; reflexivity. Qed.

(** A [Content-Type] the caller set to the empty string is overwritten. *)
Example fetchJSON_empty_content_type :
  (xhr_calls <$>
     fetchJSON "https://e/search" (Some 1%positive)
       (store_of {| method := Some POST; headers := Some 1%positive;
                    body := VStr "q"; credentials := None |}
                 [("Content-Type", VStr "")]))
  = Some [xhr_open POST "https://e/search" None;
          xhr_setRequestHeader "Content-Type" (VStr "application/json");
          xhr_send (VStr "q")].
Proof. vm_compute; reflexivity. Qed.

(** ** What the caller sees afterwards *)

(** C10. [fetch] and [fetchJSON] write into the caller's own objects.
    With a method other than GET and DELETE and a body that is neither a
    string nor absent, the options object holds, after either call, a
    string in place of the body: the JSON text of the body, which is not
    empty (an absent body stays absent). When the caller's header object
    lacks the key [Content-Type], [fetchJSON] adds it, with
    [application/json], to that very object, to which the options still
    refer. *)
Theorem fetch_fetchJSON_write_to_options
    (url : string) (options : positive) (σ : Store) (opts : IRequestOptions) :
  refers_to σ options opts →
  plain (body opts) = true →
  (is_GET_or_DELETE (method opts) = false →
   typeof (body opts) ≠ "string" →
   body opts ≠ VUndefined →
   ∃ text,
     SerializeJSONProperty (body opts) = Some text ∧
     text ≠ "" ∧
     VStr text ≠ body opts ∧
     (∃ run, fetch url (Some options) σ = Some run ∧
             request_options (store_after run) !! options
             = Some (with_body (VStr text) opts)) ∧
     (∃ run, fetchJSON url (Some options) σ = Some run ∧
             body <$> request_options (store_after run) !! options
             = Some (VStr text))) ∧
  (is_GET_or_DELETE (method opts) = false →
   body opts = VUndefined →
   (∃ run, fetch url (Some options) σ = Some run ∧
           request_options (store_after run) !! options = Some opts) ∧
   (∃ run, fetchJSON url (Some options) σ = Some run ∧
           body <$> request_options (store_after run) !! options
           = Some VUndefined)) ∧
  (∀ h hs,
     headers opts = Some h →
     header_objects σ !! h = Some hs →
     ¬ In "Content-Type" (List.map fst hs) →
     ∃ run, fetchJSON url (Some options) σ = Some run ∧
            header_objects (store_after run) !! h
            = Some (hs ++ [("Content-Type", VStr "application/json")])%list ∧
            headers <$> request_options (store_after run) !! options
            = Some (Some h)).
Proof.
  intros Href _. pose proof Href as [Hopts _].
  destruct (fetchJSON_eq url _ _ _ Href) as (h' & σ' & Hf & Ho & Hs & Hsame).
  destruct (refers_to_after_fetchJSON _ _ _ _ _ Ho Hs) as [Href' _].
  destruct (fetch_run url _ _ _ Href') as (run' & Hrun' & Hst' & _).
  destruct (fetch_run url _ _ _ Href) as (run & Hrun & Hst & _).
  split; [|split].
  - intros Hm Hb Hdef.
    destruct (SerializeJSONProperty (body opts)) as [text|] eqn:Htext;
      [|now apply SerializeJSONProperty_undefined in Htext].
    exists text. split; [reflexivity|].
    split; [exact (SerializeJSONProperty_nonempty _ _ Htext)|].
    split; [intros Heq; apply Hb; now rewrite <- Heq|].
    apply String.eqb_neq in Hb.
    assert (JSON_stringify (body opts) = VStr text) as Hjson
      by (unfold JSON_stringify; now rewrite Htext).
    split.
    + exists run. split; [exact Hrun|].
      rewrite Hst, Hm, Hb, Hjson. cbn [andb orb]. now apply lookup_assign_body.
    + exists run'. rewrite Hf. split; [exact Hrun'|].
      rewrite Hst'. cbn [with_headers method body]. rewrite Hm, Hb, Hjson.
      cbn [andb orb]. rewrite (lookup_assign_body _ _ _ _ Ho). reflexivity.
  - intros Hm Hundef. split.
    + exists run. split; [exact Hrun|].
      rewrite Hst, Hm, Hundef. simpl.
      replace (Some opts) with (Some (with_body VUndefined opts))
        by (destruct opts; simpl in *; now subst).
      now apply lookup_assign_body.
    + exists run'. rewrite Hf. split; [exact Hrun'|].
      rewrite Hst'. cbn [with_headers method body]. rewrite Hm, Hundef.
      cbn [andb orb typeof String.eqb Ascii.eqb Bool.eqb].
      rewrite (lookup_assign_body _ _ _ _ Ho). reflexivity.
  - intros h hs Hh Hhs Hnot.
    specialize (Hsame _ Hh). subst h'.
    exists run'. rewrite Hf. split; [exact Hrun'|].
    assert (caller_headers σ opts = hs) as Hc
      by (unfold caller_headers, headers_of; now rewrite Hh, Hhs).
    destruct (set_property_absent "Content-Type" (VStr "application/json") hs Hnot)
      as [Hget Hset].
    rewrite Hc in Hs. unfold with_content_type in Hs.
    rewrite Hget in Hs. simpl in Hs. rewrite Hset in Hs.
    rewrite Hst'.
    destruct ((is_GET_or_DELETE (method (with_headers h opts))
               && truthy (body (with_headers h opts)))
              || String.eqb (typeof (body (with_headers h opts))) "string").
    + rewrite Hs, Ho. split; reflexivity.
    + simpl. rewrite Hs, lookup_alter_eq, Ho. split; reflexivity.
Qed.

(** The caller passes [{method: 'POST', headers: {Accept: 'text/html'},
    body: {size: 3}}]: afterwards the body of that object is the
    ten-character string [{"size":3}], and the header object has the
    second key. *)
Lemma fetch_fetchJSON_write_to_options_witness :
  (∃ run,
     fetch "https://e/search" (Some 1%positive)
       (store_of {| method := Some POST; headers := Some 1%positive;
                    body := VObj [("size", VNum 3)]; credentials := None |}
                 [("Accept", VStr "text/html")])
     = Some run ∧
     request_options (store_after run) !! 1%positive
     = Some {| method := Some POST; headers := Some 1%positive;
               body := VStr (String "{" (String dquote
                               ("size" +:+ String dquote ":3}")));
               credentials := None |}) ∧
  (∃ run,
     fetchJSON "https://e/search" (Some 1%positive)
       (store_of {| method := Some POST; headers := Some 1%positive;
                    body := VObj [("size", VNum 3)]; credentials := None |}
                 [("Accept", VStr "text/html")])
     = Some run ∧
     body <$> request_options (store_after run) !! 1%positive
     = Some (VStr (String "{" (String dquote ("size" +:+ String dquote ":3}"))))) ∧
  (∃ run,
     fetchJSON "https://e/search" (Some 1%positive)
       (store_of {| method := Some POST; headers := Some 1%positive;
                    body := VObj [("size", VNum 3)]; credentials := None |}
                 [("Accept", VStr "text/html")])
     = Some run ∧
     header_objects (store_after run) !! 1%positive
     = Some [("Accept", VStr "text/html");
             ("Content-Type", VStr "application/json")] ∧
     headers <$> request_options (store_after run) !! 1%positive
     = Some (Some 1%positive)).
Proof.
  destruct (fetch_fetchJSON_write_to_options "https://e/search" 1%positive
              (store_of {| method := Some POST; headers := Some 1%positive;
                           body := VObj [("size", VNum 3)];
                           credentials := None |}
                        [("Accept", VStr "text/html")])
              {| method := Some POST; headers := Some 1%positive;
                 body := VObj [("size", VNum 3)]; credentials := None |}
              (conj eq_refl (ex_intro _ _ eq_refl)) eq_refl)
    as (Hbody & _ & Hheaders).
  destruct Hbody as (text & Htext & _ & _ & Hfetch & HfetchJSON);
    [reflexivity | discriminate | discriminate |].
  vm_compute in Htext. injection Htext as <-.
  split; [exact Hfetch|]. split; [exact HfetchJSON|].
  apply (Hheaders 1%positive [("Accept", VStr "text/html")] eq_refl eq_refl).
  simpl. intros [H | []]. discriminate.
Defined.

(** ** ElasticSearchService *)

Lemma getDefaultConfig_JSON (searchTerm : string) :
  SerializeJSONProperty (body (getDefaultConfig searchTerm))
  = Some (query_text searchTerm).
Proof.
  cbv -[quote_chars String.append].
  repeat (rewrite append_assoc || rewrite append_cons || rewrite append_nil_l).
  reflexivity.
Qed.



Lemma new_options_refers_to (opts : IRequestOptions) (σ : Store) :
  headers opts = None →
  refers_to (snd (new_options opts σ)) (fst (new_options opts σ)) opts.
Proof.
  intros Hh. split; simpl.
  - apply lookup_insert_eq.
  - now rewrite Hh.
Qed.

(** ** fetchJSONP: the two handlers *)

Lemma _clearFunction_completes (functionName : string) (w : World) :
  snd (_clearFunction functionName w) = Normal.
Proof.
  unfold _clearFunction, try_catch, delete_global, assign_global. simpl.
  destruct (host_delete_throws w); reflexivity.
Qed.

Lemma _removeScript_throws (id : string) (w : World) :
  getElementById id (head w) = None →
  snd (_removeScript id w) = Throw (Thrown TypeError removeChild_null_message).
Proof. intros H. unfold _removeScript. simpl. now rewrite H. Qed.

Lemma getElementById_last (id : string) (els : list Element) (e : Element) :
  element_id e = id → ∃ i, getElementById id (els ++ [e]) = Some i.
Proof.
  intros He. induction els as [|x els [i IH]]; simpl.
  - rewrite He, String.eqb_refl. eauto.
  - destruct (String.eqb (element_id x) id); [eauto|]. rewrite IH. simpl. eauto.
Qed.

Lemma run_app (_url callbackFn callbackFnName : string)
    (evs evs' : list Event) (w : World) :
  run _url callbackFn callbackFnName (evs ++ evs') w
  = run _url callbackFn callbackFnName evs'
      (run _url callbackFn callbackFnName evs w).
Proof. apply fold_left_app. Qed.

Lemma run_single (_url callbackFn callbackFnName : string) (ev : Event) (w : World) :
  run _url callbackFn callbackFnName [ev] w
  = step _url callbackFn callbackFnName w ev.
Proof. reflexivity. Qed.

Lemma step_spent (_url callbackFn callbackFnName : string) (w : World) (ev : Event) :
  spent w → removes ev = false →
  step _url callbackFn callbackFnName w ev = w.
Proof.
  intros [Ht Hw] Hr. destruct ev as [name response|id|id]; simpl in *.
  - specialize (Hw name). destruct (window w !! name) as [[]|]; congruence.
  - now rewrite Ht.
  - discriminate.
Qed.

Lemma run_spent (_url callbackFn callbackFnName : string) (evs : list Event) (w : World) :
  spent w → Forall (fun ev => removes ev = false) evs →
  run _url callbackFn callbackFnName evs w = w.
Proof.
  intros Hs Hall. induction Hall as [|ev evs Hev _ IH]; [reflexivity|].
  unfold run in *. simpl. now rewrite (step_spent _ _ _ _ _ Hs Hev).
Qed.

(** The callback on a world in which the call is still waiting and its
    script is in place. *)
Lemma temporary_callback_run (_url callbackFn callbackFnName : string)
    (response : JsVal) (w : World) (id : positive) (t : Z) (i : nat) :
  timeoutId w = Some id →
  pending_timer w = Some (id, t) →
  jsonp_promise w = None →
  getElementById (scriptId callbackFn callbackFnName) (head w) = Some i →
  handle (temporary_callback callbackFn callbackFnName response) w
  = {| window := (if host_delete_throws w
                  then <[callbackFnName := PageValue VUndefined]> (window w)
                  else delete callbackFnName (window w));
       head := delete i (head w);
       pending_timer := None;
       host_delete_throws := host_delete_throws w;
       timeoutId := Some id;
       jsonp_promise := Some (Resolved response);
       cleanup_log := ((cleanup_log w ++ [ClearTimeout]) ++ [RemoveScript])
                      ++ [ClearFunction];
       uncaught := uncaught w |}.
Proof.
  destruct w as [win hd pt d tid pr lg un]. simpl. intros -> -> -> Hi.
  unfold handle, temporary_callback, seq, settle, clearTimeout, _removeScript,
    _clearFunction, try_catch, delete_global, assign_global. simpl.
  rewrite Pos.eqb_refl. simpl. rewrite Hi. simpl.
  destruct d; reflexivity.
Qed.

Lemma timeout_handler_run (_url callbackFn callbackFnName : string)
    (w : World) (i : nat) :
  jsonp_promise w = None →
  getElementById (scriptId callbackFn callbackFnName) (head w) = Some i →
  handle (timeout_handler _url callbackFn callbackFnName) (with_pending_timer None w)
  = {| window := (if host_delete_throws w
                  then <[callbackFnName := PageValue VUndefined]> (window w)
                  else delete callbackFnName (window w));
       head := delete i (head w);
       pending_timer := None;
       host_delete_throws := host_delete_throws w;
       timeoutId := timeoutId w;
       jsonp_promise :=
         Some (Rejected (Thrown Error ("JSONP request to " +:+ _url +:+ " timed out")));
       cleanup_log := (cleanup_log w ++ [ClearFunction]) ++ [RemoveScript];
       uncaught := uncaught w |}.
Proof.
  destruct w as [win hd pt d tid pr lg un]. simpl. intros -> Hi.
  unfold handle, timeout_handler, seq, settle, _removeScript,
    _clearFunction, try_catch, delete_global, assign_global. simpl.
  destruct d; simpl; rewrite Hi; reflexivity.
Qed.

Section one_call.

Variables (_url : string) (options : option IJSONOptions) (now random : Z)
          (b : Browser).

Let callbackFn := jsonp_callbackFn options.
Let callbackFnName := jsonp_callbackFnName options now random.
Let started := fetchJSONP _url options now random b.

Lemma started_window_other (name : string) :
  name ≠ callbackFnName → window started !! name ≠ Some TemporaryCallback.
Proof.
  intros Hne. unfold started, fetchJSONP. simpl.
  rewrite lookup_insert_ne by (fold callbackFnName; congruence).
  rewrite lookup_fmap. destruct (page_globals b !! name); discriminate.
Qed.

Lemma step_started_quiet (ev : Event) :
  triggers callbackFnName (next_timer b) ev = false →
  removes ev = false →
  step _url callbackFn callbackFnName started ev = started.
Proof.
  intros Ht Hr. destruct ev as [name response|id|id];
    cbn [triggers removes] in Ht, Hr; unfold step.
  - apply String.eqb_neq in Ht.
    destruct (window started !! name) as [[]|] eqn:E; try reflexivity.
    exfalso. exact (started_window_other name Ht E).
  - change (pending_timer started) with (Some (next_timer b, jsonp_timeout options)).
    cbn iota beta. rewrite Pos.eqb_sym, Ht. reflexivity.
  - discriminate.
Qed.

Lemma run_started_quiet (evs : list Event) :
  Forall (fun ev => triggers callbackFnName (next_timer b) ev = false) evs →
  Forall (fun ev => removes ev = false) evs →
  run _url callbackFn callbackFnName evs started = started.
Proof.
  intros Ht Hr. induction Ht as [|ev evs Hev _ IH]; [reflexivity|].
  apply Forall_cons in Hr as [Hr1 Hr2].
  unfold run in *. simpl. rewrite (step_started_quiet _ Hev Hr1). auto.
Qed.

Lemma spent_without_callback (m : gmap string Global) (t : option positive)
    (p : option Settled) (l : list Cleanup) (u : list Reason) (els : list Element)
    (d : bool) :
  (∀ name, m !! name ≠ Some TemporaryCallback) →
  spent {| window := m; head := els; pending_timer := None;
           host_delete_throws := d; timeoutId := t; jsonp_promise := p;
           cleanup_log := l; uncaught := u |}.
Proof. intros H. split; [reflexivity | exact H]. Qed.

Lemma deleted_no_callback (name : string) :
  delete callbackFnName (window started) !! name ≠ Some TemporaryCallback.
Proof.
  destruct (decide (name = callbackFnName)) as [-> | Hne].
  - rewrite lookup_delete_eq. discriminate.
  - rewrite lookup_delete_ne by congruence. now apply started_window_other.
Qed.

Lemma undefined_no_callback (name : string) :
  <[callbackFnName := PageValue VUndefined]> (window started) !! name
  ≠ Some TemporaryCallback.
Proof.
  destruct (decide (name = callbackFnName)) as [-> | Hne].
  - rewrite lookup_insert_eq. discriminate.
  - rewrite lookup_insert_ne by congruence. now apply started_window_other.
Qed.

Lemma started_script :
  ∃ i, getElementById (scriptId callbackFn callbackFnName) (head started) = Some i.
Proof. apply getElementById_last. reflexivity. Qed.

(** The callback is called first. *)
Lemma callback_first (response : JsVal) :
  let w := step _url callbackFn callbackFnName started
             (script_calls callbackFnName response) in
  spent w ∧
  cleanup_log w = [ClearTimeout; RemoveScript; ClearFunction] ∧
  uncaught w = [] ∧
  jsonp_promise w = Some (Resolved response).
Proof.
  destruct started_script as [i Hi].
  cbn zeta. unfold step.
  assert (window started !! callbackFnName = Some TemporaryCallback) as ->
    by apply lookup_insert_eq.
  rewrite (temporary_callback_run _url callbackFn callbackFnName response started
             (next_timer b) (jsonp_timeout options) i eq_refl eq_refl eq_refl Hi).
  split; [|repeat split].
  apply spent_without_callback. intros name.
  change (host_delete_throws started) with (delete_throws b).
  destruct (delete_throws b);
    [apply undefined_no_callback | apply deleted_no_callback].
Qed.

(** The timer fires first. *)
Lemma timeout_first :
  let w := step _url callbackFn callbackFnName started
             (timer_fires (next_timer b)) in
  spent w ∧
  cleanup_log w = [ClearFunction; RemoveScript] ∧
  uncaught w = [] ∧
  jsonp_promise w
  = Some (Rejected (Thrown Error ("JSONP request to " +:+ _url +:+ " timed out"))).
Proof.
  destruct started_script as [i Hi].
  cbn zeta. unfold step.
  change (pending_timer started) with (Some (next_timer b, jsonp_timeout options)).
  cbn iota beta. rewrite Pos.eqb_refl.
  rewrite (timeout_handler_run _url callbackFn callbackFnName started i eq_refl Hi).
  split; [|repeat split].
  apply spent_without_callback. intros name.
  change (host_delete_throws started) with (delete_throws b).
  destruct (delete_throws b);
    [apply undefined_no_callback | apply deleted_no_callback].
Qed.

End one_call.

(** ** fetchJSONP: cleanup *)

Lemma getElementById_first (id : string) (pre post : list Element) (e : Element) :
  Forall (fun x => element_id x ≠ id) pre →
  element_id e = id →
  getElementById id (pre ++ e :: post)%list = Some (List.length pre) ∧
  delete (List.length pre) (pre ++ e :: post)%list = (pre ++ post)%list.
Proof.
  intros Hpre He. induction Hpre as [|x pre Hx _ [IH1 IH2]]; simpl.
  - rewrite He, String.eqb_refl. auto.
  - apply String.eqb_neq in Hx. rewrite Hx, IH1. simpl. split; [reflexivity|].
    now rewrite IH2.
Qed.

(** The world after the first trigger, in terms of the world the call
    started in. *)
Lemma first_trigger
    (_url : string) (options : option IJSONOptions) (now random : Z)
    (b : Browser) (before after : list Event) (trigger : Event) :
  Forall (fun ev => removes ev = false) (before ++ trigger :: after)%list →
  Forall (fun ev =>
            triggers (jsonp_callbackFnName options now random) (next_timer b) ev
            = false) before →
  triggers (jsonp_callbackFnName options now random) (next_timer b) trigger = true →
  ∃ i,
    getElementById
      (scriptId (jsonp_callbackFn options) (jsonp_callbackFnName options now random))
      (head (fetchJSONP _url options now random b)) = Some i ∧
    head (run _url (jsonp_callbackFn options)
              (jsonp_callbackFnName options now random)
              (before ++ trigger :: after)%list
              (fetchJSONP _url options now random b))
    = delete i (head (fetchJSONP _url options now random b)) ∧
    window (run _url (jsonp_callbackFn options)
                (jsonp_callbackFnName options now random)
                (before ++ trigger :: after)%list
                (fetchJSONP _url options now random b))
    = (if delete_throws b
       then <[jsonp_callbackFnName options now random := PageValue VUndefined]>
              (window (fetchJSONP _url options now random b))
       else delete (jsonp_callbackFnName options now random)
              (window (fetchJSONP _url options now random b))).
Proof.
  intros Hrem Hquiet Htrig.
  apply Forall_app in Hrem as [Hrem_before Hrem_rest].
  apply Forall_cons in Hrem_rest as [Hrem_trigger Hrem_after].
  change (trigger :: after) with ([trigger] ++ after)%list.
  rewrite !run_app.
  rewrite (run_started_quiet _ _ _ _ _ _ Hquiet Hrem_before).
  rewrite !run_single.
  destruct (started_script _url options now random b) as [i Hi].
  exists i. split; [exact Hi|].
  destruct trigger as [name response|id|id]; cbn [triggers] in Htrig.
  - apply String.eqb_eq in Htrig. subst name.
    destruct (callback_first _url options now random b response) as (Hspent & _).
    cbn zeta in Hspent. rewrite (run_spent _ _ _ _ _ Hspent Hrem_after).
    unfold step.
    assert (window (fetchJSONP _url options now random b)
              !! jsonp_callbackFnName options now random = Some TemporaryCallback)
      as -> by apply lookup_insert_eq.
    rewrite (temporary_callback_run _url _ _ response
               (fetchJSONP _url options now random b)
               (next_timer b) (jsonp_timeout options) i eq_refl eq_refl eq_refl Hi).
    split; reflexivity.
  - apply Pos.eqb_eq in Htrig. subst id.
    destruct (timeout_first _url options now random b) as (Hspent & _).
    cbn zeta in Hspent. rewrite (run_spent _ _ _ _ _ Hspent Hrem_after).
    unfold step.
    change (pending_timer (fetchJSONP _url options now random b))
      with (Some (next_timer b, jsonp_timeout options)).
    cbn iota beta. rewrite Pos.eqb_refl.
    rewrite (timeout_handler_run _url _ _
               (fetchJSONP _url options now random b) i eq_refl Hi).
    split; reflexivity.
  - discriminate.
Qed.

(** C6, as the code has it. Take any call of [fetchJSONP] on a page whose
    [<head>] has no element with the id of the script, and any events after
    it in which the page does not itself remove elements of [<head>].
    Whichever of the callback and the timer comes first, the injected
    script is taken out of [<head>], which is then as the page had it, and
    the global callback is gone (or [undefined], on a host where [delete]
    throws); each of the two operations is entered once, no exception
    leaves the handler, and every later event changes nothing. When the
    callback comes first the timer is cancelled once and the promise is
    resolved with the response; when the timer comes first it is not
    cancelled, and the promise is rejected with an [Error] naming the url
    the call was given. *)
Theorem fetchJSONP_cleanup_once
    (_url : string) (options : option IJSONOptions) (now random : Z)
    (b : Browser) (before after : list Event) (trigger : Event) :
  Forall (fun e => fst e ≠ scriptId (jsonp_callbackFn options)
                                    (jsonp_callbackFnName options now random))
         (page_head b) →
  Forall (fun ev => removes ev = false) (before ++ trigger :: after)%list →
  Forall (fun ev =>
            triggers (jsonp_callbackFnName options now random) (next_timer b) ev
            = false) before →
  triggers (jsonp_callbackFnName options now random) (next_timer b) trigger = true →
  let play := run _url (jsonp_callbackFn options)
                  (jsonp_callbackFnName options now random) in
  let w := play (before ++ trigger :: after)%list
                (fetchJSONP _url options now random b) in
  head w
  = List.map (fun e => {| element_id := fst e; element_src := snd e |})
             (page_head b) ∧
  window w !! jsonp_callbackFnName options now random
  = (if delete_throws b then Some (PageValue VUndefined) else None) ∧
  times RemoveScript w = 1%nat ∧
  times ClearFunction w = 1%nat ∧
  uncaught w = [] ∧
  spent w ∧
  w = play (before ++ [trigger])%list (fetchJSONP _url options now random b) ∧
  match trigger with
  | script_calls _ response =>
      times ClearTimeout w = 1%nat ∧
      jsonp_promise w = Some (Resolved response)
  | _ =>
      times ClearTimeout w = 0%nat ∧
      jsonp_promise w
      = Some (Rejected (Thrown Error ("JSONP request to " +:+ _url +:+ " timed out")))
  end.
Proof.
  intros Hpage Hrem Hquiet Htrig. cbn zeta.
  destruct (first_trigger _url options now random b before after trigger
              Hrem Hquiet Htrig) as (i & Hi & Hhead & Hwindow).
  split; [|split].
  { rewrite Hhead. unfold fetchJSONP in *. cbn [head] in *.
    match type of Hi with getElementById ?id (?l ++ [?e])%list = _ =>
      destruct (getElementById_first id l [] e) as [Hfirst Hdel]
    end.
    { clear -Hpage. induction Hpage; constructor; auto. }
    { reflexivity. }
    rewrite Hfirst in Hi. injection Hi as <-. rewrite Hdel.
    apply List.app_nil_r. }
  { rewrite Hwindow. destruct (delete_throws b).
    - apply lookup_insert_eq.
    - apply lookup_delete_eq. }
  clear i Hi Hhead Hwindow.
  apply Forall_app in Hrem as [Hrem_before Hrem_rest].
  apply Forall_cons in Hrem_rest as [Hrem_trigger Hrem_after].
  change (trigger :: after) with ([trigger] ++ after)%list.
  rewrite !run_app.
  rewrite (run_started_quiet _ _ _ _ _ _ Hquiet Hrem_before).
  rewrite !run_single.
  destruct trigger as [name response|id|id]; cbn [triggers] in Htrig.
  - apply String.eqb_eq in Htrig. subst name.
    destruct (callback_first _url options now random b response)
      as (Hspent & Hlog & Hunc & Hp). cbn zeta in *.
    rewrite (run_spent _ _ _ _ _ Hspent Hrem_after).
    unfold times. rewrite Hlog. repeat split; try assumption; apply Hspent.
  - apply Pos.eqb_eq in Htrig. subst id.
    destruct (timeout_first _url options now random b)
      as (Hspent & Hlog & Hunc & Hp). cbn zeta in *.
    rewrite (run_spent _ _ _ _ _ Hspent Hrem_after).
    unfold times. rewrite Hlog. repeat split; try assumption; apply Hspent.
  - discriminate.
Qed.

(** A page with a stylesheet in [<head>]: some other global is called, then
    the callback, then the timer and the callback again. *)
Lemma fetchJSONP_cleanup_once_witness :
  let w :=
    run "https://e/api" "callback" "cb"
      ([script_calls "other" VNull] ++ script_calls "cb" (VNum 7)
         :: [timer_fires 1%positive; script_calls "cb" VNull])%list
      (fetchJSONP "https://e/api" (Some cb_options) 0 0
         {| page_globals := ∅; page_head := [("style", "a.css")];
            next_timer := 1%positive; delete_throws := false |}) in
  head w = [{| element_id := "style"; element_src := "a.css" |}] ∧
  window w !! "cb" = None ∧
  times RemoveScript w = 1%nat ∧
  times ClearFunction w = 1%nat ∧
  uncaught w = [] ∧
  spent w ∧
  w = run "https://e/api" "callback" "cb"
        ([script_calls "other" VNull] ++ [script_calls "cb" (VNum 7)])%list
        (fetchJSONP "https://e/api" (Some cb_options) 0 0
           {| page_globals := ∅; page_head := [("style", "a.css")];
              next_timer := 1%positive; delete_throws := false |}) ∧
  times ClearTimeout w = 1%nat ∧
  jsonp_promise w = Some (Resolved (VNum 7)).
Proof.
  apply (fetchJSONP_cleanup_once "https://e/api" (Some cb_options) 0 0
           {| page_globals := ∅; page_head := [("style", "a.css")];
              next_timer := 1%positive; delete_throws := false |}
           [script_calls "other" VNull]
           [timer_fires 1%positive; script_calls "cb" VNull]
           (script_calls "cb" (VNum 7))).
  - repeat constructor. discriminate.
  - repeat constructor.
  - repeat constructor.
  - reflexivity.
Defined.

(** C6, as stated, fails: when the timer fires first, only two of the three
    cleanup operations run; the timer is not cancelled. *)
Lemma fetchJSONP_timeout_does_not_clear_timer :
  cleanup_log (cb_run [timer_fires 1%positive]) = [ClearFunction; RemoveScript] ∧
  times ClearTimeout (cb_run [timer_fires 1%positive]) = 0%nat ∧
  jsonp_promise (cb_run [timer_fires 1%positive])
  = Some (Rejected (Thrown Error "JSONP request to https://e/api timed out")).
Proof. repeat split; vm_compute; reflexivity. Qed.

(** On a host where [delete window[name]] throws, [_clearFunction] catches
    the exception and stores [undefined] instead. *)
Example clearFunction_exception_is_caught :
  uncaught
    (run "https://e/api" "callback" "cb" [timer_fires 1%positive]
       (fetchJSONP "https://e/api" (Some cb_options) 0 0
          {| page_globals := ∅; page_head := []; next_timer := 1%positive;
             delete_throws := true |}))
  = [] ∧
  window
    (run "https://e/api" "callback" "cb" [timer_fires 1%positive]
       (fetchJSONP "https://e/api" (Some cb_options) 0 0
          {| page_globals := ∅; page_head := []; next_timer := 1%positive;
             delete_throws := true |})) !! "cb"
  = Some (PageValue VUndefined).
Proof. split; vm_compute; reflexivity. Qed.

(** C7. The exception of [_removeScript] is not caught. The page has taken
    the injected script out of [<head>] before the cleanup runs. When the
    timer then fires, the TypeError of [removeChild] leaves the handler.
    When the callback is then called, the TypeError leaves it too, the
    global callback is never deleted, and a second call of the callback
    runs the cleanup again and throws again. *)
Theorem removeScript_exception_is_not_caught :
  element_id <$> head cb_started = ["callback_cb"] ∧
  uncaught (cb_run [page_removes "callback_cb"; timer_fires 1%positive])
  = [Thrown TypeError removeChild_null_message] ∧
  uncaught (cb_run [page_removes "callback_cb"; script_calls "cb" (VNum 7)])
  = [Thrown TypeError removeChild_null_message] ∧
  window (cb_run [page_removes "callback_cb"; script_calls "cb" (VNum 7)]) !! "cb"
  = Some TemporaryCallback ∧
  cleanup_log (cb_run [page_removes "callback_cb"; script_calls "cb" (VNum 7);
                       script_calls "cb" (VNum 8)])
  = [ClearTimeout; RemoveScript; ClearTimeout; RemoveScript].
Proof. repeat split; vm_compute; reflexivity. Qed.

(** * Beyond the claims *)

(** ** fetch: every run *)

Lemma refers_to_after_assign_body (σ : Store) (o : positive)
    (opts : IRequestOptions) (b : JsVal) :
  refers_to σ o opts →
  refers_to (assign_body o b σ) o (with_body b opts).
Proof.
  intros [Ho Hh]. split; [now apply lookup_assign_body|exact Hh].
Qed.

Lemma with_body_same (opts : IRequestOptions) : with_body (body opts) opts = opts.
Proof. now destruct opts. Qed.

Lemma encoded_body_idempotent (b : JsVal) :
  encoded_body (encoded_body b) = encoded_body b.
Proof.
  destruct (encoded_body_cases b) as [[_ ->] | [(s & _ & ->) | (s & -> & _)]];
    reflexivity.
Qed.

Lemma encoded_body_typeof (b : JsVal) :
  String.eqb (typeof (encoded_body b)) "string" = false → encoded_body b = VUndefined.
Proof.
  destruct (encoded_body_cases b) as [[_ ->] | [(s & _ & ->) | (s & -> & _)]];
    [reflexivity | discriminate | discriminate].
Qed.

Lemma GET_or_DELETE_not_HEAD (m : option Method) :
  is_GET_or_DELETE m = true → is_HEAD m = false.
Proof. destruct m as [[]|]; simpl; congruence. Qed.

(** What [fetch] has called on the request by the time it returns. When
    it leaves the promise pending, it has made exactly one [open], one
    [setRequestHeader] for each header of the caller in turn, and one
    [send], in that order. When it rejects with one of its own two
    TypeErrors, it has called nothing on the request. *)
Theorem fetch_rejects_or_sends
    (url : string) (options : positive) (σ : Store) (opts : IRequestOptions) :
  refers_to σ options opts →
  ∃ run,
    fetch url (Some options) σ = Some run ∧
    (promise run = None →
     ∃ m url' user payload,
       xhr_calls run
       = xhr_open m url' user
         :: header_calls (caller_headers σ opts) ++ [xhr_send payload]) ∧
    (∀ message,
       promise run = Some (Rejected (Thrown TypeError message)) →
       message = GET_body_message ∨ message = HEAD_body_message →
       xhr_calls run = []).
Proof.
  intros Href. rewrite (fetch_eq _ _ _ _ Href).
  assert (∀ o u, ∃ m url' user payload,
            request_calls o u (headers_of σ opts)
            = xhr_open m url' user
              :: header_calls (caller_headers σ opts) ++ [xhr_send payload]) as Hcalls.
  { intros o u. unfold request_calls, caller_headers.
    assert (∃ m url' user, open_call o u = xhr_open m url' user) as (m & url' & user & ->).
    { unfold open_call. destruct (credentials o) as [c|]; [|eauto].
      destruct (negb (String.eqb (username c) "")); eauto. }
    exists m, url', user. destruct (headers_of σ opts); eauto. }
  destruct (is_GET_or_DELETE (method opts) && truthy (body opts)).
  - destruct (is_object (body opts));
      [destruct (shadows_hasOwnProperty (body opts))|];
      eexists; (split; [reflexivity|]); simpl; split;
      try discriminate; try reflexivity; intros; try apply Hcalls; discriminate.
  - cbn zeta.
    destruct (is_HEAD (method opts) && truthy (encoded_body (body opts)));
      eexists; (split; [reflexivity|]); simpl; split;
      try discriminate; try reflexivity; intros; try apply Hcalls; discriminate.
Qed.

Lemma fetch_rejects_or_sends_witness :
  ∃ run,
    fetch "https://e/doc" (Some 1%positive)
      (store_of {| method := Some PUT; headers := Some 1%positive;
                   body := VNum 3; credentials := None |}
                [("Accept", VStr "text/html"); ("X-Id", VNum 9)])
    = Some run ∧
    (promise run = None →
     ∃ m url' user payload,
       xhr_calls run
       = xhr_open m url' user
         :: [xhr_setRequestHeader "Accept" (VStr "text/html");
             xhr_setRequestHeader "X-Id" (VNum 9)] ++ [xhr_send payload]) ∧
    (∀ message,
       promise run = Some (Rejected (Thrown TypeError message)) →
       message = GET_body_message ∨ message = HEAD_body_message →
       xhr_calls run = []).
Proof.
  apply (fetch_rejects_or_sends "https://e/doc" 1%positive
           (store_of {| method := Some PUT; headers := Some 1%positive;
                        body := VNum 3; credentials := None |}
                     [("Accept", VStr "text/html"); ("X-Id", VNum 9)])
           {| method := Some PUT; headers := Some 1%positive;
              body := VNum 3; credentials := None |}).
  split; [reflexivity | eexists; reflexivity].
Defined.



(** [fetch] writes to one place only, the [body] of the options it was
    given: header objects, other options objects, and the method, headers
    and credentials of its own options are as before. *)
Theorem fetch_frame
    (url : string) (options : positive) (σ : Store) (opts : IRequestOptions)
    (run : FetchRun) :
  refers_to σ options opts →
  fetch url (Some options) σ = Some run →
  header_objects (store_after run) = header_objects σ ∧
  (∀ other, other ≠ options →
     request_options (store_after run) !! other = request_options σ !! other) ∧
  ∃ b, request_options (store_after run) !! options = Some (with_body b opts).
Proof.
  intros Href Hf. pose proof Href as [Ho _].
  destruct (fetch_run url _ _ _ Href) as (run' & Hrun & Hst & _).
  rewrite Hf in Hrun. injection Hrun as <-. rewrite Hst.
  destruct ((is_GET_or_DELETE (method opts) && truthy (body opts))
            || String.eqb (typeof (body opts)) "string").
  - repeat split. exists (body opts). now rewrite with_body_same.
  - repeat split.
    + intros other Hne. simpl. now apply lookup_alter_ne.
    + eexists. now apply lookup_assign_body.
Qed.

Lemma fetch_frame_witness :
  header_objects
    (store_of {| method := Some POST; headers := Some 1%positive;
                 body := VStr "3"; credentials := None |}
              [("Accept", VStr "text/html")])
  = header_objects
      (store_of {| method := Some POST; headers := Some 1%positive;
                   body := VNum 3; credentials := None |}
                [("Accept", VStr "text/html")]).
Proof.
  apply (fetch_frame "https://e/doc" 1%positive
           (store_of {| method := Some POST; headers := Some 1%positive;
                        body := VNum 3; credentials := None |}
                     [("Accept", VStr "text/html")])
           {| method := Some POST; headers := Some 1%positive;
              body := VNum 3; credentials := None |}
           {| store_after :=
                store_of {| method := Some POST; headers := Some 1%positive;
                            body := VStr "3"; credentials := None |}
                         [("Accept", VStr "text/html")];
              xhr_calls := [xhr_open POST "https://e/doc" None;
                            xhr_setRequestHeader "Accept" (VStr "text/html");
                            xhr_send (VStr "3")];
              promise := None |}).
  - split; [reflexivity | eexists; reflexivity].
  - vm_compute. reflexivity.
Defined.

(** Without options, [fetch] works on an options object of its own: it
    opens a GET on the url as given, sets no header, sends [null], and
    leaves every object of the caller as it was. *)
Theorem fetch_without_options (url : string) (σ : Store) :
  ∃ run,
    fetch url None σ = Some run ∧
    promise run = None ∧
    xhr_calls run = [xhr_open GET url None; xhr_send VNull] ∧
    header_objects (store_after run) = header_objects σ ∧
    ∀ o opts, request_options σ !! o = Some opts →
              request_options (store_after run) !! o = Some opts.
Proof.
  pose proof (new_options_refers_to no_options σ eq_refl) as Href.
  pose proof (is_fresh (dom (request_options σ))) as Hfresh.
  change (fetch url None σ)
    with (fetch url (Some (fst (new_options no_options σ)))
            (snd (new_options no_options σ))).
  rewrite (fetch_eq _ _ _ _ Href).
  eexists. split; [reflexivity|]. repeat split.
  intros o opts Ho. simpl.
  assert (o ≠ fresh (dom (request_options σ))) as Hne.
  { intros ->. apply Hfresh. apply elem_of_dom. eauto. }
  rewrite lookup_alter_ne, lookup_insert_ne by congruence. exact Ho.
Qed.

(** Asking again with the same options object, for a method other than GET
    and DELETE: the second [fetch] makes the same calls, settles the same
    way and leaves the store as the first left it; a body serialised once
    is not serialised again. *)
Theorem fetch_again_same_request
    (url : string) (options : positive) (σ : Store) (opts : IRequestOptions)
    (first : FetchRun) :
  refers_to σ options opts →
  is_GET_or_DELETE (method opts) = false →
  fetch url (Some options) σ = Some first →
  fetch url (Some options) (store_after first) = Some first.
Proof.
  intros Href Hm Hf. pose proof Href as [Ho Hh].
  rewrite (fetch_eq _ _ _ _ Href), Hm in Hf. cbn [andb] in Hf. cbn zeta in Hf.
  set (b := encoded_body (body opts)) in *.
  set (σ1 := if String.eqb (typeof (body opts)) "string"
             then σ else assign_body options b σ) in *.
  assert (refers_to σ1 options (with_body b opts)) as Href1.
  { unfold σ1. destruct (String.eqb (typeof (body opts)) "string") eqn:Hs.
    - assert (b = body opts) as -> by (unfold b, encoded_body; now rewrite Hs).
      now rewrite with_body_same.
    - now apply refers_to_after_assign_body. }
  assert (headers_of σ1 (with_body b opts) = headers_of σ opts) as Hhs.
  { unfold headers_of, σ1. cbn [with_body headers].
    now destruct (String.eqb (typeof (body opts)) "string"). }
  assert (encoded_body b = b) as Heb by apply encoded_body_idempotent.
  assert ((if String.eqb (typeof b) "string" then σ1
           else assign_body options b σ1) = σ1) as Hσ.
  { destruct (String.eqb (typeof b) "string") eqn:Hs; [reflexivity|].
    destruct Href1 as [Ho1 _]. destruct σ1 as [ro ho]. unfold assign_body.
    simpl in *. f_equal. apply map_eq. intros i.
    destruct (decide (i = options)) as [-> | Hne].
    - rewrite lookup_alter_eq, Ho1. reflexivity.
    - now rewrite lookup_alter_ne. }
  assert (first
          = if is_HEAD (method opts) && truthy b
            then rejected σ1 TypeError HEAD_body_message
            else {| store_after := σ1;
                    xhr_calls := request_calls (with_body b opts) url (headers_of σ opts);
                    promise := None |}) as Hfirst by congruence.
  assert (store_after first = σ1) as ->
    by (rewrite Hfirst; now destruct (is_HEAD (method opts) && truthy b)).
  rewrite (fetch_eq _ _ _ _ Href1). cbn [with_body method body].
  rewrite Hm. cbn [andb]. cbn zeta.
  rewrite !Heb, Hσ, Hhs, Hfirst. reflexivity.
Qed.

Lemma fetch_again_same_request_witness :
  fetch "https://e/doc" (Some 1%positive)
    (store_of {| method := Some POST; headers := None;
                 body := VStr "[1]"; credentials := None |} [])
  = Some {| store_after :=
              store_of {| method := Some POST; headers := None;
                          body := VStr "[1]"; credentials := None |} [];
            xhr_calls := [xhr_open POST "https://e/doc" None;
                          xhr_send (VStr "[1]")];
            promise := None |}.
Proof.
  apply (fetch_again_same_request "https://e/doc" 1%positive
           (store_of {| method := Some POST; headers := None;
                        body := VArr [VNum 1]; credentials := None |} [])
           {| method := Some POST; headers := None;
              body := VArr [VNum 1]; credentials := None |}
           {| store_after :=
                store_of {| method := Some POST; headers := None;
                            body := VStr "[1]"; credentials := None |} [];
              xhr_calls := [xhr_open POST "https://e/doc" None;
                            xhr_send (VStr "[1]")];
              promise := None |}).
  - split; [reflexivity | exact I].
  - reflexivity.
  - vm_compute. reflexivity.
Defined.

(** Asking again is different for GET and DELETE with a falsy body that is
    neither absent nor a string ([null], [0], [false]): the first [fetch]
    sends the request and leaves the JSON text in [options.body]; the
    second, on the same options, finds a non-empty string there and rejects
    with the TypeError for non-object bodies. *)
Theorem fetch_again_falsy_body_rejected
    (url : string) (options : positive) (σ : Store) (opts : IRequestOptions) :
  refers_to σ options opts →
  is_GET_or_DELETE (method opts) = true →
  truthy (body opts) = false →
  body opts ≠ VUndefined →
  typeof (body opts) ≠ "string" →
  ∃ first second,
    fetch url (Some options) σ = Some first ∧
    promise first = None ∧
    fetch url (Some options) (store_after first) = Some second ∧
    promise second = Some (Rejected (Thrown TypeError GET_body_message)) ∧
    xhr_calls second = [].
Proof.
  intros Href Hm Ht Hu Hs. apply String.eqb_neq in Hs.
  pose proof (refers_to_after_assign_body _ _ _ (encoded_body (body opts)) Href)
    as Href1.
  destruct (encoded_body_cases (body opts))
    as [[H _] | [(s & H & _) | (s & H & Hne)]].
  - contradiction.
  - rewrite H in Hs. discriminate.
  - apply truthy_string in Hne.
    rewrite (fetch_eq _ _ _ _ Href), Hm, Ht. cbn [andb]. cbn zeta.
    rewrite (GET_or_DELETE_not_HEAD _ Hm), Hs. cbn [andb].
    eexists _, _. split; [reflexivity|]. split; [reflexivity|]. cbn [store_after].
    rewrite (fetch_eq _ _ _ _ Href1). cbn [with_body method body].
    rewrite Hm, H, Hne. cbn.
    split; [reflexivity|]. split; reflexivity.
Qed.

Lemma fetch_again_falsy_body_rejected_witness :
  ∃ first second,
    fetch "https://e/doc" (Some 1%positive)
      (store_of {| method := Some DELETE; headers := None; body := VNull;
                   credentials := None |} [])
    = Some first ∧
    promise first = None ∧
    fetch "https://e/doc" (Some 1%positive) (store_after first) = Some second ∧
    promise second = Some (Rejected (Thrown TypeError GET_body_message)) ∧
    xhr_calls second = [].
Proof.
  apply (fetch_again_falsy_body_rejected "https://e/doc" 1%positive
           (store_of {| method := Some DELETE; headers := None; body := VNull;
                        credentials := None |} [])
           {| method := Some DELETE; headers := None; body := VNull;
              credentials := None |}).
  - split; [reflexivity | exact I].
  - reflexivity.
  - reflexivity.
  - discriminate.
  - discriminate.
Defined.

Lemma fetch_Some_refers_to (url : string) (o : positive) (σ : Store)
    (run : FetchRun) :
  fetch url (Some o) σ = Some run → ∃ opts, refers_to σ o opts.
Proof.
  unfold fetch. intros H.
  destruct (request_options σ !! o) as [opts|] eqn:Ho; [|discriminate].
  exists opts. split; [exact Ho|]. simpl in H.
  destruct (headers opts) as [h|]; [|exact I].
  destruct (header_objects σ !! h); [eauto | discriminate].
Qed.

Lemma fetch_never_resolves_early (url : string) (options : option positive)
    (σ : Store) (run : FetchRun) (v : JsVal) :
  fetch url options σ = Some run → promise run ≠ Some (Resolved v).
Proof.
  intros Hf.
  assert (∃ o σ0 opts, fetch url (Some o) σ0 = Some run ∧ refers_to σ0 o opts)
    as (o & σ0 & opts & Hf' & Href).
  { destruct options as [o|].
    - destruct (fetch_Some_refers_to _ _ _ _ Hf) as [opts Href]. eauto.
    - exists (fst (new_options no_options σ)), (snd (new_options no_options σ)),
        no_options.
      split; [exact Hf | now apply new_options_refers_to]. }
  rewrite (fetch_eq _ _ _ _ Href) in Hf'.
  destruct (is_GET_or_DELETE (method opts) && truthy (body opts)).
  - destruct (is_object (body opts));
      [destruct (shadows_hasOwnProperty (body opts))|];
      injection Hf' as <-; discriminate.
  - cbn zeta in Hf'.
    destruct (is_HEAD (method opts) && truthy (encoded_body (body opts)));
      injection Hf' as <-; discriminate.
Qed.

(** The promise of [fetch] is resolved in one case only: the executor did
    not reject, and the request loaded with a status below 400 other than
    0. An error, abort or timeout event never resolves it, and a load never
    resolves a promise the executor rejected. *)
Theorem fetch_resolves_only_on_load
    (url : string) (options : option positive) (σ : Store)
    (run : FetchRun) (ev : XhrEvent) (v : JsVal) :
  fetch url options σ = Some run →
  (fetch_outcome run ev = Resolved v ↔
   promise run = None ∧
   ∃ status responseText response,
     ev = onload status responseText response ∧
     (status < 400)%Z ∧ status ≠ 0%Z ∧
     v = match response with Some r => r | None => VStr responseText end).
Proof.
  intros Hf. unfold fetch_outcome. split.
  - destruct (promise run) as [s|] eqn:Hp.
    + intros ->. exfalso. exact (fetch_never_resolves_early _ _ _ _ _ Hf Hp).
    + split; [reflexivity|].
      destruct ev as [status responseText response|error| |]; try discriminate.
      simpl in H.
      destruct (status >=? 400)%Z eqn:H400; [discriminate|].
      destruct (status =? 0)%Z eqn:H0; [discriminate|].
      injection H as <-. exists status, responseText, response.
      repeat split; lia.
  - intros (-> & status & responseText & response & -> & H400 & H0 & ->). simpl.
    assert ((status >=? 400)%Z = false) as -> by lia.
    assert ((status =? 0)%Z = false) as -> by lia.
    reflexivity.
Qed.

Lemma fetch_resolves_only_on_load_witness :
  fetch_outcome
    {| store_after :=
         store_of {| method := Some POST; headers := None; body := VStr "q";
                     credentials := None |} [];
       xhr_calls := [xhr_open POST "https://e/search" None; xhr_send (VStr "q")];
       promise := None |}
    (onload 204 "" None)
  = Resolved (VStr "").
Proof.
  apply (fetch_resolves_only_on_load "https://e/search" (Some 1%positive)
           (store_of {| method := Some POST; headers := None; body := VStr "q";
                        credentials := None |} [])).
  - reflexivity.
  - split; [reflexivity|]. exists 204%Z, "", None. repeat split; lia.
Defined.

(** ** fetchJSON: every run *)

Lemma fetchJSON_present (url : string) (o h : positive) (σ : Store)
    (opts : IRequestOptions) (hs : list (string * JsVal)) :
  request_options σ !! o = Some opts →
  headers opts = Some h →
  header_objects σ !! h = Some hs →
  fetchJSON url (Some o) σ
  = fetch url (Some o)
      (if negb (truthy (get_property "Content-Type" hs))
       then assign_header h "Content-Type" (VStr "application/json") σ
       else σ).
Proof.
  intros Ho Hh Hhs. unfold fetchJSON. rewrite Ho. simpl. rewrite Hh, Hhs.
  reflexivity.
Qed.

Lemma fetchJSON_absent (url : string) (o : positive) (σ : Store)
    (opts : IRequestOptions) :
  request_options σ !! o = Some opts →
  headers opts = None →
  fetchJSON url (Some o) σ
  = fetch url (Some o)
      (assign_header (fst (new_headers [] σ)) "Content-Type"
         (VStr "application/json")
         (assign_headers o (fst (new_headers [] σ)) (snd (new_headers [] σ)))).
Proof.
  intros Ho Hh. unfold fetchJSON. rewrite Ho. simpl. rewrite Hh. simpl.
  rewrite lookup_insert_eq. reflexivity.
Qed.

Lemma with_content_type_truthy (hs : list (string * JsVal)) :
  truthy (get_property "Content-Type" (with_content_type hs)) = true.
Proof.
  unfold with_content_type.
  destruct (truthy (get_property "Content-Type" hs)) eqn:Ht; simpl.
  - exact Ht.
  - now rewrite get_set_property_eq.
Qed.

Lemma fetch_store_after (url : string) (o : positive) (σ : Store)
    (opts : IRequestOptions) (run : FetchRun) :
  refers_to σ o opts →
  fetch url (Some o) σ = Some run →
  header_objects (store_after run) = header_objects σ ∧
  (∀ other, other ≠ o →
     request_options (store_after run) !! other = request_options σ !! other) ∧
  ∃ b, request_options (store_after run) !! o = Some (with_body b opts).
Proof.
  intros Href Hf. pose proof Href as [Ho _].
  destruct (fetch_run url _ _ _ Href) as (run' & Hrun & Hst & _).
  rewrite Hf in Hrun. injection Hrun as <-. rewrite Hst.
  destruct ((is_GET_or_DELETE (method opts) && truthy (body opts))
            || String.eqb (typeof (body opts)) "string").
  - repeat split. exists (body opts). now rewrite with_body_same.
  - repeat split.
    + intros other Hne. simpl. now apply lookup_alter_ne.
    + eexists. now apply lookup_assign_body.
Qed.

(** Without options, [fetchJSON] makes an options object and a header
    object of its own: it opens a GET on the url, sets
    [Content-Type: application/json] and nothing else, sends [null], and
    leaves every object of the caller as it was. *)
Theorem fetchJSON_without_options (url : string) (σ : Store) :
  ∃ run,
    fetchJSON url None σ = Some run ∧
    promise run = None ∧
    xhr_calls run
    = [xhr_open GET url None;
       xhr_setRequestHeader "Content-Type" (VStr "application/json");
       xhr_send VNull] ∧
    (∀ o opts, request_options σ !! o = Some opts →
               request_options (store_after run) !! o = Some opts) ∧
    (∀ h hs, header_objects σ !! h = Some hs →
             header_objects (store_after run) !! h = Some hs).
Proof.
  pose proof (new_options_refers_to no_options σ eq_refl) as [Ho _].
  pose proof (is_fresh (dom (request_options σ))) as Hfresh_o.
  pose proof (is_fresh (dom (header_objects σ))) as Hfresh_h.
  change (fetchJSON url None σ)
    with (fetchJSON url (Some (fst (new_options no_options σ)))
            (snd (new_options no_options σ))).
  rewrite (fetchJSON_absent _ _ _ _ Ho eq_refl).
  match goal with |- ∃ run, fetch _ (Some ?o) ?σ' = _ ∧ _ =>
    assert (refers_to σ' o (with_headers (fst (new_headers [] (snd (new_options no_options σ)))) no_options)) as Href
  end.
  { split; simpl.
    - now rewrite lookup_alter_eq, lookup_insert_eq.
    - rewrite lookup_alter_eq, lookup_insert_eq. eauto. }
  rewrite (fetch_eq _ _ _ _ Href).
  eexists. split; [reflexivity|]. split; [reflexivity|]. split.
  { cbn. unfold headers_of. cbn. rewrite lookup_alter_eq, lookup_insert_eq.
    reflexivity. }
  split.
  - intros o opts Hopts. cbn.
    assert (o ≠ fresh (dom (request_options σ))) as Hne
      by (intros ->; apply Hfresh_o, elem_of_dom; eauto).
    rewrite !lookup_alter_ne, lookup_insert_ne by congruence. exact Hopts.
  - intros h hs Hhs. cbn.
    assert (h ≠ fresh (dom (header_objects σ))) as Hne
      by (intros ->; apply Hfresh_h, elem_of_dom; eauto).
    rewrite lookup_alter_ne, lookup_insert_ne by congruence. exact Hhs.
Qed.

Lemma refers_to_assign_header (σ : Store) (o h : positive)
    (opts : IRequestOptions) (key : string) (v : JsVal) :
  refers_to σ o opts → refers_to (assign_header h key v σ) o opts.
Proof.
  intros [Ho Hh]. split; [exact Ho|].
  destruct (headers opts) as [h'|]; [|exact I]. simpl.
  destruct Hh as [hs Hhs].
  destruct (decide (h' = h)) as [-> | Hne].
  - rewrite lookup_alter_eq, Hhs. eauto.
  - rewrite lookup_alter_ne by congruence. eauto.
Qed.

(** [fetchJSON] on options that have a header object: what the store
    holds afterwards. *)
Lemma fetchJSON_present_store (url : string) (o h : positive) (σ : Store)
    (opts : IRequestOptions) (hs : list (string * JsVal)) (run : FetchRun) :
  request_options σ !! o = Some opts →
  headers opts = Some h →
  header_objects σ !! h = Some hs →
  fetchJSON url (Some o) σ = Some run →
  header_objects (store_after run) !! h = Some (with_content_type hs) ∧
  (∀ other, other ≠ h →
     header_objects (store_after run) !! other = header_objects σ !! other) ∧
  (∀ other, other ≠ o →
     request_options (store_after run) !! other = request_options σ !! other) ∧
  ∃ b, request_options (store_after run) !! o = Some (with_body b opts).
Proof.
  intros Ho Hh Hhs Hf. rewrite (fetchJSON_present _ _ _ _ _ _ Ho Hh Hhs) in Hf.
  assert (refers_to σ o opts) as Href
    by (split; [exact Ho | rewrite Hh; eauto]).
  unfold with_content_type.
  destruct (negb (truthy (get_property "Content-Type" hs))).
  - pose proof (refers_to_assign_header _ _ h _ "Content-Type"
                  (VStr "application/json") Href) as Href'.
    destruct (fetch_store_after _ _ _ _ _ Href' Hf) as (Hho & Hro & Hb).
    rewrite Hho. simpl. rewrite lookup_alter_eq, Hhs. repeat split; try assumption.
    intros other Hne. now rewrite lookup_alter_ne.
  - destruct (fetch_store_after _ _ _ _ _ Href Hf) as (Hho & Hro & Hb).
    rewrite Hho. repeat split; assumption.
Qed.

(** [fetchJSON] on any options of the caller: what the store holds
    afterwards. *)
Lemma fetchJSON_store_after (url : string) (o : positive) (σ : Store)
    (opts : IRequestOptions) (run : FetchRun) :
  refers_to σ o opts →
  fetchJSON url (Some o) σ = Some run →
  ∃ h b,
    request_options (store_after run) !! o
    = Some (with_body b (with_headers h opts)) ∧
    header_objects (store_after run) !! h
    = Some (with_content_type (caller_headers σ opts)) ∧
    match headers opts with
    | Some h0 => h = h0
    | None => header_objects σ !! h = None
    end ∧
    (∀ other, other ≠ o →
       request_options (store_after run) !! other = request_options σ !! other) ∧
    (∀ other, other ≠ h →
       header_objects (store_after run) !! other = header_objects σ !! other).
Proof.
  intros Href Hf. pose proof Href as [Ho Hh].
  destruct (headers opts) as [h0|] eqn:Hh0.
  - destruct Hh as [hs Hhs].
    destruct (fetchJSON_present_store _ _ _ _ _ _ _ Ho Hh0 Hhs Hf)
      as (H1 & H2 & H3 & b & H4).
    exists h0, b. rewrite (with_headers_same _ _ Hh0).
    unfold caller_headers, headers_of. rewrite Hh0, Hhs. auto.
  - rewrite (fetchJSON_absent _ _ _ _ Ho Hh0) in Hf.
    pose proof (is_fresh (dom (header_objects σ))) as Hfresh.
    set (h := fresh (dom (header_objects σ))) in *.
    match type of Hf with fetch _ _ ?σ' = _ =>
      assert (refers_to σ' o (with_headers h opts)) as Href'
    end.
    { split; simpl.
      - now rewrite lookup_alter_eq, Ho.
      - rewrite lookup_alter_eq, lookup_insert_eq. eauto. }
    destruct (fetch_store_after _ _ _ _ _ Href' Hf) as (Hho & Hro & b & Hb).
    exists h, b. rewrite Hho. unfold caller_headers, headers_of. rewrite Hh0.
    split; [exact Hb|]. split.
    { simpl. now rewrite lookup_alter_eq, lookup_insert_eq. }
    split. { apply not_elem_of_dom. exact Hfresh. }
    split.
    + intros other Hne. rewrite (Hro other Hne). simpl.
      now rewrite lookup_alter_ne.
    + intros other Hne. simpl.
      now rewrite lookup_alter_ne, lookup_insert_ne.
Qed.

(** [fetchJSON] writes to the options it was given and to their header
    object, and to nothing else of the caller's: other options objects and
    other header objects are as before. Where the options had no headers,
    the header object they get did not exist before the call, and it holds
    the one key [Content-Type]. *)
Theorem fetchJSON_frame
    (url : string) (options : positive) (σ : Store) (opts : IRequestOptions) :
  refers_to σ options opts →
  ∃ run h b,
    fetchJSON url (Some options) σ = Some run ∧
    request_options (store_after run) !! options
    = Some (with_body b (with_headers h opts)) ∧
    header_objects (store_after run) !! h
    = Some (with_content_type (caller_headers σ opts)) ∧
    (∀ h0, headers opts = Some h0 → h = h0) ∧
    (headers opts = None →
     header_objects σ !! h = None ∧
     header_objects (store_after run) !! h
     = Some [("Content-Type", VStr "application/json")]) ∧
    (∀ other, other ≠ options →
       request_options (store_after run) !! other = request_options σ !! other) ∧
    (∀ other, other ≠ h →
       header_objects (store_after run) !! other = header_objects σ !! other).
Proof.
  intros Href.
  destruct (fetchJSON_eq url _ _ _ Href) as (h' & σ' & Hf & Ho' & Hs' & _).
  destruct (refers_to_after_fetchJSON _ _ _ _ _ Ho' Hs') as [Href' _].
  destruct (fetch_run url _ _ _ Href') as (run & Hrun & _).
  rewrite <- Hf in Hrun.
  destruct (fetchJSON_store_after _ _ _ _ _ Href Hrun)
    as (h & b & Ho & Hs & Hh & Hro & Hho).
  exists run, h, b. split; [exact Hrun|]. split; [exact Ho|]. split; [exact Hs|].
  split; [|split; [|split; assumption]].
  - intros h0 Hh0. rewrite Hh0 in Hh. exact Hh.
  - intros Hnone. rewrite Hnone in Hh. split; [exact Hh|].
    rewrite Hs. unfold caller_headers, headers_of. rewrite Hnone. reflexivity.
Qed.

(** Options without headers, in a store that has a header object already. *)
Lemma fetchJSON_frame_witness :
  ∃ run h b,
    fetchJSON "https://e/a" (Some 1%positive)
      (store_of {| method := Some POST; headers := None;
                   body := VStr "a"; credentials := None |}
                [("Accept", VStr "text/html")])
    = Some run ∧
    request_options (store_after run) !! 1%positive
    = Some (with_body b
              (with_headers h
                 {| method := Some POST; headers := None;
                    body := VStr "a"; credentials := None |})) ∧
    header_objects (store_after run) !! h
    = Some [("Content-Type", VStr "application/json")] ∧
    (∀ h0, (None : option positive) = Some h0 → h = h0) ∧
    ((None : option positive) = None →
     header_objects
       (store_of {| method := Some POST; headers := None;
                    body := VStr "a"; credentials := None |}
                 [("Accept", VStr "text/html")]) !! h = None ∧
     header_objects (store_after run) !! h
     = Some [("Content-Type", VStr "application/json")]) ∧
    (∀ other, other ≠ 1%positive →
       request_options (store_after run) !! other
       = request_options
           (store_of {| method := Some POST; headers := None;
                        body := VStr "a"; credentials := None |}
                     [("Accept", VStr "text/html")]) !! other) ∧
    (∀ other, other ≠ h →
       header_objects (store_after run) !! other
       = header_objects
           (store_of {| method := Some POST; headers := None;
                        body := VStr "a"; credentials := None |}
                     [("Accept", VStr "text/html")]) !! other).
Proof.
  apply (fetchJSON_frame "https://e/a" 1%positive
           (store_of {| method := Some POST; headers := None;
                        body := VStr "a"; credentials := None |}
                     [("Accept", VStr "text/html")])
           {| method := Some POST; headers := None;
              body := VStr "a"; credentials := None |}).
  split; [reflexivity | exact I].
Defined.

(** Calling [fetchJSON] again with the same options adds nothing: the
    header objects are left exactly as the first call left them, with one
    [Content-Type]. *)
Theorem fetchJSON_again_same_headers
    (url url' : string) (options : positive) (σ : Store)
    (opts : IRequestOptions) (first : FetchRun) :
  refers_to σ options opts →
  fetchJSON url (Some options) σ = Some first →
  ∃ second,
    fetchJSON url' (Some options) (store_after first) = Some second ∧
    header_objects (store_after second) = header_objects (store_after first).
Proof.
  intros Href Hf.
  destruct (fetchJSON_store_after _ _ _ _ _ Href Hf)
    as (h & b & Ho1 & Hh1 & _).
  assert (refers_to (store_after first) options (with_body b (with_headers h opts)))
    as Href1 by (split; [exact Ho1 | simpl; rewrite Hh1; eauto]).
  rewrite (fetchJSON_present url' _ _ _ _ _ Ho1 eq_refl Hh1).
  rewrite with_content_type_truthy. cbn [negb].
  destruct (fetch_run url' _ _ _ Href1) as (second & Hsecond & Hst & _).
  exists second. split; [exact Hsecond|]. rewrite Hst.
  match goal with |- context [if ?c then _ else _] => now destruct c end.
Qed.

Lemma fetchJSON_again_same_headers_witness :
  ∃ second,
    fetchJSON "https://e/other" (Some 1%positive)
      (store_of {| method := Some POST; headers := Some 1%positive;
                   body := VStr "[1]"; credentials := None |}
                [("Accept", VStr "text/html");
                 ("Content-Type", VStr "application/json")])
    = Some second ∧
    header_objects (store_after second)
    = header_objects
        (store_of {| method := Some POST; headers := Some 1%positive;
                     body := VStr "[1]"; credentials := None |}
                  [("Accept", VStr "text/html");
                   ("Content-Type", VStr "application/json")]).
Proof.
  apply (fetchJSON_again_same_headers "https://e/search" "https://e/other"
           1%positive
           (store_of {| method := Some POST; headers := Some 1%positive;
                        body := VArr [VNum 1]; credentials := None |}
                     [("Accept", VStr "text/html")])
           {| method := Some POST; headers := Some 1%positive;
              body := VArr [VNum 1]; credentials := None |}
           {| store_after :=
                store_of {| method := Some POST; headers := Some 1%positive;
                            body := VStr "[1]"; credentials := None |}
                         [("Accept", VStr "text/html");
                          ("Content-Type", VStr "application/json")];
              xhr_calls :=
                [xhr_open POST "https://e/search" None;
                 xhr_setRequestHeader "Accept" (VStr "text/html");
                 xhr_setRequestHeader "Content-Type" (VStr "application/json");
                 xhr_send (VStr "[1]")];
              promise := None |}).
  - split; [reflexivity | eexists; reflexivity].
  - vm_compute. reflexivity.
Defined.

(** Two options objects that share one header object: after [fetchJSON]
    on the first, a plain [fetch] on the second sends the header object
    with the default [Content-Type] in it. *)
Theorem fetchJSON_shared_headers
    (url url' : string) (first second h : positive) (σ : Store)
    (opts opts' : IRequestOptions) (hs : list (string * JsVal))
    (run run' : FetchRun) :
  first ≠ second →
  request_options σ !! first = Some opts →
  request_options σ !! second = Some opts' →
  headers opts = Some h →
  headers opts' = Some h →
  header_objects σ !! h = Some hs →
  fetchJSON url (Some first) σ = Some run →
  fetch url' (Some second) (store_after run) = Some run' →
  promise run' = None →
  ∃ opened payload,
    xhr_calls run'
    = opened :: header_calls (with_content_type hs) ++ [xhr_send payload].
Proof.
  intros Hne Ho Ho' Hh Hh' Hhs Hf Hf' Hp.
  destruct (fetchJSON_present_store _ _ _ _ _ _ _ Ho Hh Hhs Hf)
    as (Hh1 & _ & Hother & _).
  assert (refers_to (store_after run) second opts') as Href'.
  { split; [rewrite Hother by congruence; exact Ho'|]. rewrite Hh', Hh1. eauto. }
  destruct (fetch_run url' _ _ _ Href') as (r & Hr & _ & Hcalls).
  rewrite Hf' in Hr. injection Hr as <-.
  destruct (Hcalls Hp) as (opened & payload & Hc).
  exists opened, payload. rewrite Hc. unfold headers_of. now rewrite Hh', Hh1.
Qed.

Lemma fetchJSON_shared_headers_witness :
  ∃ opened payload,
    xhr_calls
      {| store_after :=
           {| request_options := request_options shared_store;
              header_objects :=
                {[ 1%positive := [("Accept", VStr "text/html");
                                  ("Content-Type", VStr "application/json")] ]} |};
         xhr_calls :=
           [xhr_open PUT "https://e/b" None;
            xhr_setRequestHeader "Accept" (VStr "text/html");
            xhr_setRequestHeader "Content-Type" (VStr "application/json");
            xhr_send (VStr "b")];
         promise := None |}
    = opened :: [xhr_setRequestHeader "Accept" (VStr "text/html");
                 xhr_setRequestHeader "Content-Type" (VStr "application/json")]
             ++ [xhr_send payload].
Proof.
  apply (fetchJSON_shared_headers "https://e/a" "https://e/b"
           1%positive 2%positive 1%positive shared_store
           {| method := Some POST; headers := Some 1%positive;
              body := VStr "a"; credentials := None |}
           {| method := Some PUT; headers := Some 1%positive;
              body := VStr "b"; credentials := None |}
           [("Accept", VStr "text/html")]
           {| store_after :=
                {| request_options := request_options shared_store;
                   header_objects :=
                     {[ 1%positive := [("Accept", VStr "text/html");
                                       ("Content-Type", VStr "application/json")] ]} |};
              xhr_calls :=
                [xhr_open POST "https://e/a" None;
                 xhr_setRequestHeader "Accept" (VStr "text/html");
                 xhr_setRequestHeader "Content-Type" (VStr "application/json");
                 xhr_send (VStr "a")];
              promise := None |}).
  - discriminate.
  - reflexivity.
  - reflexivity.
  - reflexivity.
  - reflexivity.
  - reflexivity.
  - vm_compute. reflexivity.
  - vm_compute. reflexivity.
  - reflexivity.
Defined.

(** [fetchJSON] writes its default before [fetch] looks at the body: for
    GET and DELETE with a truthy body that is not an object, the call is
    rejected and nothing is sent, yet the caller's header object has
    gained [Content-Type: application/json]. *)
Theorem fetchJSON_rejected_still_writes_header
    (url : string) (options h : positive) (σ : Store)
    (opts : IRequestOptions) (hs : list (string * JsVal)) :
  request_options σ !! options = Some opts →
  headers opts = Some h →
  header_objects σ !! h = Some hs →
  ¬ In "Content-Type" (List.map fst hs) →
  is_GET_or_DELETE (method opts) = true →
  truthy (body opts) = true →
  is_object (body opts) = false →
  ∃ run,
    fetchJSON url (Some options) σ = Some run ∧
    promise run = Some (Rejected (Thrown TypeError GET_body_message)) ∧
    xhr_calls run = [] ∧
    header_objects (store_after run) !! h
    = Some (hs ++ [("Content-Type", VStr "application/json")])%list.
Proof.
  intros Ho Hh Hhs Hnot Hm Ht Hobj.
  destruct (set_property_absent "Content-Type" (VStr "application/json") hs Hnot)
    as [Hget Hset].
  rewrite (fetchJSON_present _ _ _ _ _ _ Ho Hh Hhs), Hget. cbn [truthy negb].
  assert (refers_to σ options opts) as Href
    by (split; [exact Ho | rewrite Hh; eauto]).
  rewrite (fetch_eq _ _ _ _
             (refers_to_assign_header _ _ h _ "Content-Type"
                (VStr "application/json") Href)).
  rewrite Hm, Ht, Hobj. cbn [andb].
  eexists. split; [reflexivity|]. repeat split.
  cbn [store_after rejected header_objects assign_header].
  rewrite lookup_alter_eq, Hhs. cbn [fmap option_fmap option_map]. now rewrite Hset.
Qed.

Lemma fetchJSON_rejected_still_writes_header_witness :
  ∃ run,
    fetchJSON "https://e/doc" (Some 1%positive)
      (store_of {| method := Some GET; headers := Some 1%positive;
                   body := VStr "id=3"; credentials := None |}
                [("Accept", VStr "text/html")])
    = Some run ∧
    promise run = Some (Rejected (Thrown TypeError GET_body_message)) ∧
    xhr_calls run = [] ∧
    header_objects (store_after run) !! 1%positive
    = Some [("Accept", VStr "text/html");
            ("Content-Type", VStr "application/json")].
Proof.
  apply (fetchJSON_rejected_still_writes_header "https://e/doc"
           1%positive 1%positive
           (store_of {| method := Some GET; headers := Some 1%positive;
                        body := VStr "id=3"; credentials := None |}
                     [("Accept", VStr "text/html")])
           {| method := Some GET; headers := Some 1%positive;
              body := VStr "id=3"; credentials := None |}
           [("Accept", VStr "text/html")]).
  - reflexivity.
  - reflexivity.
  - reflexivity.
  - simpl. intros [H | []]. discriminate.
  - reflexivity.
  - reflexivity.
  - reflexivity.
Defined.

(** ** fetchJSONP: every world, every event *)

Ltac unfold_handlers :=
  unfold handle, temporary_callback, timeout_handler, seq, settle, clearTimeout,
    _removeScript, _clearFunction, try_catch, delete_global, assign_global,
    with_window, with_head, with_pending_timer, with_promise, with_uncaught, logged.

Lemma getElementById_Some (id : string) (els : list Element) (i : nat) :
  getElementById id els = Some i →
  ∃ pre e post,
    els = (pre ++ e :: post)%list ∧ length pre = i ∧ element_id e = id ∧
    Forall (fun x => element_id x ≠ id) pre ∧
    delete i els = (pre ++ post)%list.
Proof.
  revert i. induction els as [|x els IH]; intros i; simpl; [discriminate|].
  destruct (String.eqb (element_id x) id) eqn:E.
  - intros [= <-]. apply String.eqb_eq in E.
    exists [], x, els. repeat split; auto.
  - destruct (getElementById id els) as [j|] eqn:Hj; [|discriminate].
    intros [= <-]. destruct (IH j eq_refl) as (pre & e & post & -> & Hl & He & Hpre & Hd).
    apply String.eqb_neq in E.
    exists (x :: pre), e, post. simpl. repeat split; auto.
    now rewrite <- Hd.
Qed.

Lemma getElementById_None (id : string) (els : list Element) :
  getElementById id els = None ↔ Forall (fun x => element_id x ≠ id) els.
Proof.
  induction els as [|x els IH]; simpl.
  - split; auto.
  - destruct (String.eqb (element_id x) id) eqn:E.
    + apply String.eqb_eq in E. split; [discriminate|].
      intros H. apply Forall_cons in H as [H _]. contradiction.
    + apply String.eqb_neq in E.
      destruct (getElementById id els); simpl.
      * split; [discriminate|]. intros H. apply Forall_cons in H as [_ H].
        apply IH in H. discriminate.
      * split; [|reflexivity]. intros _. constructor; [exact E | now apply IH].
Qed.

Section handlers.

Variables (_url callbackFn callbackFnName : string).

Lemma step_window_other (w : World) (ev : Event) (name : string) :
  name ≠ callbackFnName →
  window (step _url callbackFn callbackFnName w ev) !! name = window w !! name.
Proof.
  intros Hne. destruct w as [win hd pt d tid pr lg un].
  destruct ev as [name' response|id|id]; simpl.
  - destruct (win !! name') as [[]|]; try reflexivity.
    unfold_handlers. simpl.
    destruct pr; simpl;
      (destruct tid as [t|]; simpl;
       [destruct pt as [[t' z]|]; simpl; [destruct (Pos.eqb t' t); simpl|]|]);
      destruct (getElementById (scriptId callbackFn callbackFnName) hd); simpl;
      try (destruct d; simpl);
      rewrite ?lookup_delete_ne, ?lookup_insert_ne by congruence; reflexivity.
  - destruct pt as [[t' z]|]; [|reflexivity].
    destruct (Pos.eqb t' id); [|reflexivity].
    unfold_handlers. simpl.
    destruct pr; simpl; destruct d; simpl;
      destruct (getElementById (scriptId callbackFn callbackFnName) hd); simpl;
      rewrite ?lookup_delete_ne, ?lookup_insert_ne by congruence; reflexivity.
  - destruct (getElementById id hd); reflexivity.
Qed.

Lemma other_elements_delete (els : list Element) (i : nat) :
  getElementById (scriptId callbackFn callbackFnName) els = Some i →
  elements_except (scriptId callbackFn callbackFnName) (delete i els)
  = elements_except (scriptId callbackFn callbackFnName) els.
Proof.
  intros Hi.
  destruct (getElementById_Some _ _ _ Hi) as (pre & e & post & -> & _ & He & _ & ->).
  unfold elements_except. rewrite !List.filter_app. simpl.
  now rewrite He, String.eqb_refl.
Qed.

Lemma step_other_elements (w : World) (ev : Event) :
  removes ev = false →
  elements_except (scriptId callbackFn callbackFnName)
    (head (step _url callbackFn callbackFnName w ev))
  = elements_except (scriptId callbackFn callbackFnName) (head w).
Proof.
  intros Hr. destruct w as [win hd pt d tid pr lg un].
  destruct ev as [name' response|id|id]; simpl; [| |discriminate].
  - destruct (win !! name') as [[]|]; try reflexivity.
    unfold_handlers. simpl.
    destruct pr; simpl;
      (destruct tid as [t|]; simpl;
       [destruct pt as [[t' z]|]; simpl; [destruct (Pos.eqb t' t); simpl|]|]);
      destruct (getElementById (scriptId callbackFn callbackFnName) hd) eqn:Hi; simpl;
      try (destruct d; simpl);
      try reflexivity; now apply other_elements_delete.
  - destruct pt as [[t' z]|]; [|reflexivity].
    destruct (Pos.eqb t' id); [|reflexivity].
    unfold_handlers. simpl.
    destruct pr; simpl; destruct d; simpl;
      destruct (getElementById (scriptId callbackFn callbackFnName) hd) eqn:Hi; simpl;
      try reflexivity; now apply other_elements_delete.
Qed.

End handlers.

(** A call touches one global only, the one named [callbackFnName]: every
    other global of the page keeps its value through any events. *)
Theorem fetchJSONP_other_globals_kept
    (_url : string) (options : option IJSONOptions) (now random : Z)
    (b : Browser) (evs : list Event) (name : string) :
  name ≠ jsonp_callbackFnName options now random →
  window (run _url (jsonp_callbackFn options)
              (jsonp_callbackFnName options now random) evs
              (fetchJSONP _url options now random b)) !! name
  = PageValue <$> page_globals b !! name.
Proof.
  intros Hne.
  assert (∀ w, window (run _url (jsonp_callbackFn options)
                           (jsonp_callbackFnName options now random) evs w) !! name
               = window w !! name) as Hrun.
  { induction evs as [|ev evs IH]; intros w; [reflexivity|].
    unfold run in *. simpl. rewrite IH. now apply step_window_other. }
  rewrite Hrun. unfold fetchJSONP. simpl.
  rewrite lookup_insert_ne by congruence. now rewrite lookup_fmap.
Qed.

Lemma fetchJSONP_other_globals_kept_witness :
  window
    (run "https://e/api" "callback" "cb"
       [script_calls "cb" (VNum 7); timer_fires 1%positive]
       (fetchJSONP "https://e/api" (Some cb_options) 0 0
          {| page_globals := {[ "app" := VNum 1 ]}; page_head := [];
             next_timer := 1%positive; delete_throws := false |})) !! "app"
  = Some (PageValue (VNum 1)).
Proof.
  assert ("app" ≠ jsonp_callbackFnName (Some cb_options) 0 0) as Hne
    by discriminate.
  exact (fetchJSONP_other_globals_kept "https://e/api" (Some cb_options) 0 0
           {| page_globals := {[ "app" := VNum 1 ]}; page_head := [];
              next_timer := 1%positive; delete_throws := false |}
           [script_calls "cb" (VNum 7); timer_fires 1%positive] "app" Hne).
Defined.

(** The handlers of a call remove nothing but elements with the id of the
    call's script: whatever the world and whatever events the callback and
    the timers bring, the other children of [<head>] stay, in order. *)
Theorem fetchJSONP_other_elements_kept
    (_url callbackFn callbackFnName : string) (evs : list Event) (w : World) :
  Forall (fun ev => removes ev = false) evs →
  elements_except (scriptId callbackFn callbackFnName)
    (head (run _url callbackFn callbackFnName evs w))
  = elements_except (scriptId callbackFn callbackFnName) (head w).
Proof.
  intros Hall. revert w. induction Hall as [|ev evs Hev _ IH]; intros w;
    [reflexivity|].
  unfold run in *. simpl. rewrite IH. now apply step_other_elements.
Qed.

Lemma fetchJSONP_other_elements_kept_witness :
  elements_except "callback_cb"
    (head
       (run "https://e/api" "callback" "cb"
          [script_calls "cb" (VNum 7); timer_fires 1%positive]
          (fetchJSONP "https://e/api" (Some cb_options) 0 0
             {| page_globals := ∅; page_head := [("style", "a.css")];
                next_timer := 1%positive; delete_throws := false |})))
  = [{| element_id := "style"; element_src := "a.css" |}].
Proof.
  apply (fetchJSONP_other_elements_kept "https://e/api" "callback" "cb"
           [script_calls "cb" (VNum 7); timer_fires 1%positive]
           (fetchJSONP "https://e/api" (Some cb_options) 0 0
              {| page_globals := ∅; page_head := [("style", "a.css")];
                 next_timer := 1%positive; delete_throws := false |})).
  repeat constructor.
Defined.

Lemma or_default_present {A} (present : A → bool) (o : option A) (d : A) :
  present d = true → present (or_default present o d) = true.
Proof.
  intros Hd. unfold or_default. destruct o as [a|]; [|exact Hd].
  destruct (present a) eqn:E; [exact E | exact Hd].
Qed.

(** What a call sets up, and with what. The script is the last child of
    [<head>], its id is [callbackFn_callbackFnName] and its src is the url
    followed by [?] when the url contains none and by [&] otherwise, then
    [callbackFn=callbackFnName]; the callback is registered under
    [callbackFnName], over whatever the page had there; the timer is
    pending. A timeout of 0, an empty [callback] and an empty
    [callbackFunction] count as absent: the delay is never 0 and neither
    name is ever empty. *)
Theorem fetchJSONP_started
    (_url : string) (options : option IJSONOptions) (now random : Z) (b : Browser) :
  head (fetchJSONP _url options now random b)
  = (List.map (fun e => {| element_id := fst e; element_src := snd e |})
              (page_head b)
     ++ [{| element_id := jsonp_callbackFn options +:+ "_"
                          +:+ jsonp_callbackFnName options now random;
            element_src := _url +:+ (if contains "?" _url then "&" else "?")
                           +:+ jsonp_callbackFn options +:+ "="
                           +:+ jsonp_callbackFnName options now random |}])%list ∧
  window (fetchJSONP _url options now random b)
    !! jsonp_callbackFnName options now random = Some TemporaryCallback ∧
  pending_timer (fetchJSONP _url options now random b)
  = Some (next_timer b, jsonp_timeout options) ∧
  jsonp_promise (fetchJSONP _url options now random b) = None ∧
  jsonp_timeout options ≠ 0%Z ∧
  jsonp_callbackFn options ≠ "" ∧
  jsonp_callbackFnName options now random ≠ "".
Proof.
  split.
  { unfold fetchJSONP. cbn [head]. rewrite indexOf_contains.
    destruct (contains "?" _url); cbn [negb]; now rewrite append_assoc. }
  split; [apply lookup_insert_eq|]. split; [reflexivity|]. split; [reflexivity|].
  split; [|split].
  - pose proof (or_default_present (fun t => negb (t =? 0)%Z)
                  (options ≫= timeout) 5000%Z eq_refl) as H.
    fold (jsonp_timeout options) in H. apply negb_true_iff in H. lia.
  - pose proof (or_default_present (fun s => negb (String.eqb s ""))
                  (options ≫= callback) "callback" eq_refl) as H.
    fold (jsonp_callbackFn options) in H.
    apply negb_true_iff in H. now apply String.eqb_neq.
  - pose proof (or_default_present (fun s => negb (String.eqb s ""))
                  (options ≫= callbackFunction)
                  ("jsonp_" +:+ Z_to_string now +:+ "_" +:+ Z_to_string random)
                  eq_refl) as H.
    fold (jsonp_callbackFnName options now random) in H.
    apply negb_true_iff in H. now apply String.eqb_neq.
Qed.

(** [_clearFunction] on any world: it never throws, also on a host where
    [delete] does; afterwards the name is unbound, or bound to
    [undefined] on such a host; every other global, the elements of
    [<head>], the timer and the promise are as before. *)
Theorem clearFunction_unbinds (functionName : string) (w : World) :
  snd (_clearFunction functionName w) = Normal ∧
  window (fst (_clearFunction functionName w)) !! functionName
  = (if host_delete_throws w then Some (PageValue VUndefined) else None) ∧
  (∀ other, other ≠ functionName →
     window (fst (_clearFunction functionName w)) !! other = window w !! other) ∧
  head (fst (_clearFunction functionName w)) = head w ∧
  pending_timer (fst (_clearFunction functionName w)) = pending_timer w ∧
  jsonp_promise (fst (_clearFunction functionName w)) = jsonp_promise w.
Proof.
  destruct w as [win hd pt d tid pr lg un]. unfold_handlers. simpl.
  destruct d; simpl; repeat split;
    rewrite ?lookup_insert_eq, ?lookup_delete_eq; try reflexivity;
    intros other Hne;
    rewrite ?lookup_insert_ne, ?lookup_delete_ne by congruence; reflexivity.
Qed.

(** [_removeScript] where a child of [<head>] has the id: it completes,
    and takes out the first child with that id and no other; the globals,
    the timer and the promise are as before. *)
Theorem removeScript_removes_first
    (id : string) (w : World) (pre post : list Element) (e : Element) :
  head w = (pre ++ e :: post)%list →
  Forall (fun x => element_id x ≠ id) pre →
  element_id e = id →
  snd (_removeScript id w) = Normal ∧
  head (fst (_removeScript id w)) = (pre ++ post)%list ∧
  window (fst (_removeScript id w)) = window w ∧
  pending_timer (fst (_removeScript id w)) = pending_timer w ∧
  jsonp_promise (fst (_removeScript id w)) = jsonp_promise w.
Proof.
  destruct w as [win hd pt d tid pr lg un]. unfold_handlers. simpl.
  intros -> Hpre He.
  destruct (getElementById_first id pre post e Hpre He) as [-> ->]. auto.
Qed.

Lemma removeScript_removes_first_witness :
  snd (_removeScript "callback_cb"
         (fetchJSONP "https://e/api" (Some cb_options) 0 0
            {| page_globals := ∅;
               page_head := [("style", "a.css"); ("callback_cb", "b.js")];
               next_timer := 1%positive; delete_throws := false |}))
  = Normal ∧
  head (fst (_removeScript "callback_cb"
               (fetchJSONP "https://e/api" (Some cb_options) 0 0
                  {| page_globals := ∅;
                     page_head := [("style", "a.css"); ("callback_cb", "b.js")];
                     next_timer := 1%positive; delete_throws := false |})))
  = ([{| element_id := "style"; element_src := "a.css" |}]
     ++ [{| element_id := "callback_cb";
            element_src := "https://e/api?callback=cb" |}])%list.
Proof.
  destruct (removeScript_removes_first "callback_cb"
              (fetchJSONP "https://e/api" (Some cb_options) 0 0
                 {| page_globals := ∅;
                    page_head := [("style", "a.css"); ("callback_cb", "b.js")];
                    next_timer := 1%positive; delete_throws := false |})
              [{| element_id := "style"; element_src := "a.css" |}]
              [{| element_id := "callback_cb";
                  element_src := "https://e/api?callback=cb" |}]
              {| element_id := "callback_cb"; element_src := "b.js" |})
    as (Hnormal & Hhead & _).
  - reflexivity.
  - repeat constructor. discriminate.
  - reflexivity.
  - split; [exact Hnormal | exact Hhead].
Defined.

(** The cleanup finds its script by id, so a child of [<head>] that had
    the same id before the call is the one that goes: once the callback or
    the timer has fired, the page's element is removed and the injected
    script is still the last child of [<head>]. *)
Theorem fetchJSONP_same_id_removes_page_element
    (_url : string) (options : option IJSONOptions) (now random : Z)
    (b : Browser) (before after : list Event) (trigger : Event)
    (pre post : list (string * string)) (src : string) :
  page_head b
  = (pre ++ (scriptId (jsonp_callbackFn options)
                      (jsonp_callbackFnName options now random), src) :: post)%list →
  Forall (fun e => fst e ≠ scriptId (jsonp_callbackFn options)
                                    (jsonp_callbackFnName options now random)) pre →
  Forall (fun ev => removes ev = false) (before ++ trigger :: after)%list →
  Forall (fun ev =>
            triggers (jsonp_callbackFnName options now random) (next_timer b) ev
            = false) before →
  triggers (jsonp_callbackFnName options now random) (next_timer b) trigger = true →
  head (run _url (jsonp_callbackFn options)
            (jsonp_callbackFnName options now random)
            (before ++ trigger :: after)%list
            (fetchJSONP _url options now random b))
  = (List.map (fun e => {| element_id := fst e; element_src := snd e |})
              (pre ++ post)
     ++ [{| element_id := scriptId (jsonp_callbackFn options)
                                   (jsonp_callbackFnName options now random);
            element_src :=
              (_url +:+ (if (indexOf _url "?" =? -1)%Z then "?" else "&"))
              +:+ jsonp_callbackFn options +:+ "="
              +:+ jsonp_callbackFnName options now random |}])%list.
Proof.
  intros Hpage Hpre Hrem Hquiet Htrig.
  destruct (first_trigger _url options now random b before after trigger
              Hrem Hquiet Htrig) as (i & Hi & -> & _).
  unfold fetchJSONP in *. cbn [head] in *. rewrite Hpage in *.
  rewrite List.map_app in *. cbn [List.map fst snd] in *.
  rewrite <- List.app_assoc in Hi. rewrite <- List.app_assoc.
  rewrite <- !List.app_comm_cons in *.
  match type of Hi with getElementById ?id (?l1 ++ ?e :: ?l2)%list = _ =>
    destruct (getElementById_first id l1 l2 e) as [Hfirst Hdel]
  end.
  { clear -Hpre. induction Hpre; constructor; auto. }
  { reflexivity. }
  rewrite Hfirst in Hi. injection Hi as <-. rewrite Hdel.
  rewrite ?List.map_app, <- ?List.app_assoc. reflexivity.
Qed.

Lemma fetchJSONP_same_id_removes_page_element_witness :
  head (run "https://e/api" "callback" "cb"
          ([] ++ timer_fires 1%positive :: [script_calls "cb" VNull])%list
          (fetchJSONP "https://e/api" (Some cb_options) 0 0
             {| page_globals := ∅;
                page_head := [("style", "a.css"); ("callback_cb", "b.js")];
                next_timer := 1%positive; delete_throws := false |}))
  = [{| element_id := "style"; element_src := "a.css" |};
     {| element_id := "callback_cb";
        element_src := "https://e/api?callback=cb" |}].
Proof.
  apply (fetchJSONP_same_id_removes_page_element "https://e/api"
           (Some cb_options) 0 0
           {| page_globals := ∅;
              page_head := [("style", "a.css"); ("callback_cb", "b.js")];
              next_timer := 1%positive; delete_throws := false |}
           [] [script_calls "cb" VNull] (timer_fires 1%positive)
           [("style", "a.css")] [] "b.js").
  - reflexivity.
  - repeat constructor. discriminate.
  - repeat constructor.
  - constructor.
  - reflexivity.
Defined.

(** The call takes over the global named [callbackFnName] and does not
    give it back: once the callback or the timer has fired, the globals
    are the page's without that name (with [undefined] under that name on
    a host where [delete] throws), whatever the page had there. *)
Theorem fetchJSONP_global_not_restored
    (_url : string) (options : option IJSONOptions) (now random : Z)
    (b : Browser) (before after : list Event) (trigger : Event) :
  Forall (fun ev => removes ev = false) (before ++ trigger :: after)%list →
  Forall (fun ev =>
            triggers (jsonp_callbackFnName options now random) (next_timer b) ev
            = false) before →
  triggers (jsonp_callbackFnName options now random) (next_timer b) trigger = true →
  window (run _url (jsonp_callbackFn options)
              (jsonp_callbackFnName options now random)
              (before ++ trigger :: after)%list
              (fetchJSONP _url options now random b))
  = (if delete_throws b
     then <[jsonp_callbackFnName options now random := PageValue VUndefined]>
            (PageValue <$> page_globals b)
     else delete (jsonp_callbackFnName options now random)
            (PageValue <$> page_globals b)).
Proof.
  intros Hrem Hquiet Htrig.
  destruct (first_trigger _url options now random b before after trigger
              Hrem Hquiet Htrig) as (i & _ & _ & ->).
  unfold fetchJSONP. cbn [window].
  destruct (delete_throws b).
  - apply insert_insert_eq.
  - apply delete_insert_eq.
Qed.

Lemma fetchJSONP_global_not_restored_witness :
  window (run "https://e/api" "callback" "cb"
            ([] ++ script_calls "cb" (VNum 7) :: [])%list
            (fetchJSONP "https://e/api" (Some cb_options) 0 0
               {| page_globals := {[ "cb" := VStr "mine" ]}; page_head := [];
                  next_timer := 1%positive; delete_throws := false |}))
  = delete "cb" (PageValue <$> ({[ "cb" := VStr "mine" ]} : gmap string JsVal)).
Proof.
  exact (fetchJSONP_global_not_restored "https://e/api" (Some cb_options) 0 0
           {| page_globals := {[ "cb" := VStr "mine" ]}; page_head := [];
              next_timer := 1%positive; delete_throws := false |}
           [] [] (script_calls "cb" (VNum 7))
           ltac:(repeat constructor) ltac:(constructor) eq_refl).
Defined.

Lemma callback_without_script
    (_url callbackFn callbackFnName : string) (w : World) (response : JsVal) :
  window w !! callbackFnName = Some TemporaryCallback →
  getElementById (scriptId callbackFn callbackFnName) (head w) = None →
  window (step _url callbackFn callbackFnName w
            (script_calls callbackFnName response)) = window w ∧
  head (step _url callbackFn callbackFnName w
          (script_calls callbackFnName response)) = head w ∧
  uncaught (step _url callbackFn callbackFnName w
              (script_calls callbackFnName response))
  = (uncaught w ++ [Thrown TypeError removeChild_null_message])%list ∧
  List.count_occ Cleanup_eq_dec
    (cleanup_log (step _url callbackFn callbackFnName w
                    (script_calls callbackFnName response))) ClearFunction
  = List.count_occ Cleanup_eq_dec (cleanup_log w) ClearFunction.
Proof.
  intros Hw Hi. destruct w as [win hd pt d tid pr lg un]. simpl in *.
  rewrite Hw. unfold_handlers. simpl.
  destruct pr; simpl;
    (destruct tid as [t|]; simpl;
     [destruct pt as [[t' z]|]; simpl; [destruct (Pos.eqb t' t); simpl|]|]);
    rewrite Hi; simpl; repeat split;
    rewrite ?List.count_occ_app; simpl; lia.
Qed.

(** Once the script is gone from [<head>] while the callback is still
    registered, every call of the callback throws the TypeError of
    [removeChild] out of the handler, deletes nothing and leaves the
    callback registered, however often it is called. *)
Theorem callback_without_script_throws_every_time
    (_url callbackFn callbackFnName : string) (w : World)
    (responses : list JsVal) :
  window w !! callbackFnName = Some TemporaryCallback →
  Forall (fun x => element_id x ≠ scriptId callbackFn callbackFnName) (head w) →
  window (run _url callbackFn callbackFnName
            (List.map (script_calls callbackFnName) responses) w)
    !! callbackFnName = Some TemporaryCallback ∧
  uncaught (run _url callbackFn callbackFnName
              (List.map (script_calls callbackFnName) responses) w)
  = (uncaught w
     ++ List.repeat (Thrown TypeError removeChild_null_message)
          (List.length responses))%list ∧
  times ClearFunction
    (run _url callbackFn callbackFnName
       (List.map (script_calls callbackFnName) responses) w)
  = times ClearFunction w.
Proof.
  intros Hw Hnone. apply getElementById_None in Hnone.
  revert w Hw Hnone. induction responses as [|r rs IH]; intros w Hw Hnone.
  - simpl. rewrite List.app_nil_r. auto.
  - destruct (callback_without_script _url callbackFn callbackFnName w r Hw Hnone)
      as (Hwin & Hhead & Hunc & Hlog).
    change (run _url callbackFn callbackFnName
              (List.map (script_calls callbackFnName) (r :: rs)) w)
      with (run _url callbackFn callbackFnName
              (List.map (script_calls callbackFnName) rs)
              (step _url callbackFn callbackFnName w
                 (script_calls callbackFnName r))).
    destruct (IH (step _url callbackFn callbackFnName w
                    (script_calls callbackFnName r)))
      as (IH1 & IH2 & IH3).
    + now rewrite Hwin.
    + now rewrite Hhead.
    + split; [exact IH1|]. split.
      * rewrite IH2, Hunc, <- List.app_assoc. reflexivity.
      * unfold times in *. now rewrite IH3.
Qed.

Lemma callback_without_script_throws_every_time_witness :
  window (run "https://e/api" "callback" "cb"
            (List.map (script_calls "cb") [VNum 7; VNum 8])
            (cb_run [page_removes "callback_cb"])) !! "cb"
  = Some TemporaryCallback ∧
  uncaught (run "https://e/api" "callback" "cb"
              (List.map (script_calls "cb") [VNum 7; VNum 8])
              (cb_run [page_removes "callback_cb"]))
  = (uncaught (cb_run [page_removes "callback_cb"])
     ++ List.repeat (Thrown TypeError removeChild_null_message) 2)%list ∧
  times ClearFunction
    (run "https://e/api" "callback" "cb"
       (List.map (script_calls "cb") [VNum 7; VNum 8])
       (cb_run [page_removes "callback_cb"]))
  = times ClearFunction (cb_run [page_removes "callback_cb"]).
Proof.
  apply (callback_without_script_throws_every_time "https://e/api" "callback" "cb"
           (cb_run [page_removes "callback_cb"]) [VNum 7; VNum 8]).
  - vm_compute. reflexivity.
  - vm_compute. constructor.
Defined.

(** ** ElasticSearchService.search: the caller's objects *)

(** A search without a custom configuration works on objects of its own:
    every options object and header object the caller had is as before. *)
Theorem search_default_frame
    (svc : ElasticSearchService) (searchTerm : string) (σ : Store) :
  ∃ run,
    search svc searchTerm None σ = Some run ∧
    (∀ o opts, request_options σ !! o = Some opts →
               request_options (store_after run) !! o = Some opts) ∧
    (∀ h hs, header_objects σ !! h = Some hs →
             header_objects (store_after run) !! h = Some hs).
Proof.
  unfold search.
  pose proof (new_options_refers_to (getDefaultConfig searchTerm) σ eq_refl) as Href.
  pose proof (is_fresh (dom (request_options σ))) as Hfresh.
  destruct (new_options (getDefaultConfig searchTerm) σ) as [o σ1] eqn:Hnew.
  cbn [fst snd] in Href.
  assert (o = fresh (dom (request_options σ))
          ∧ σ1 = {| request_options :=
                      <[fresh (dom (request_options σ)) :=
                          getDefaultConfig searchTerm]> (request_options σ);
                    header_objects := header_objects σ |}) as [-> ->]
    by (unfold new_options in Hnew; now injection Hnew as <- <-).
  destruct (fetchJSON_eq (_searchURL svc) _ _ _ Href) as (h0 & σ' & Hf & Ho' & Hs' & _).
  destruct (refers_to_after_fetchJSON _ _ _ _ _ Ho' Hs') as [Href' _].
  destruct (fetch_run (_searchURL svc) _ _ _ Href') as (run & Hrun & _).
  exists run. rewrite Hf. split; [exact Hrun|]. rewrite <- Hf in Hrun.
  destruct (fetchJSON_store_after _ _ _ _ _ Href Hrun)
    as (h & b & _ & _ & Hh & Hro & Hho).
  cbn [getDefaultConfig headers] in Hh. simpl in Hh.
  split.
  - intros o opts Hopts.
    assert (o ≠ fresh (dom (request_options σ))) as Hne
      by (intros ->; apply Hfresh, elem_of_dom; eauto).
    rewrite (Hro o Hne). simpl. now rewrite lookup_insert_ne.
  - intros h' hs Hhs.
    assert (h' ≠ h) as Hne by congruence.
    now rewrite (Hho h' Hne).
Qed.

(** ** SearchController *)

Lemma search_default_run (svc : ElasticSearchService) (searchTerm : string)
    (σ : Store) :
  ∃ run,
    search svc searchTerm None σ = Some run ∧
    promise run = None ∧
    xhr_calls run
    = [xhr_open POST (_searchURL svc) None;
       xhr_setRequestHeader "Content-Type" (VStr "application/json");
       xhr_send (JSON_stringify (body (getDefaultConfig searchTerm)))].
Proof.
  unfold search.
  pose proof (new_options_refers_to (getDefaultConfig searchTerm) σ eq_refl) as Href.
  destruct (new_options (getDefaultConfig searchTerm) σ) as [defaultConfig σ1].
  cbn [fst snd] in Href.
  destruct (fetchJSON_eq (_searchURL svc) _ _ _ Href) as (h & σ' & Hf & Ho & Hs & _).
  destruct (refers_to_after_fetchJSON _ _ _ _ _ Ho Hs) as [Href' Hhs'].
  rewrite Hf, (fetch_eq _ _ _ _ Href'), Hhs'.
  eexists. split; [reflexivity|]. split; reflexivity.
Qed.

Lemma fetchJSON_dom (url : string) (o : positive) (σ : Store)
    (opts : IRequestOptions) (run : FetchRun) :
  refers_to σ o opts →
  fetchJSON url (Some o) σ = Some run →
  dom (request_options (store_after run)) = dom (request_options σ).
Proof.
  intros Href Hf.
  destruct (fetchJSON_store_after _ _ _ _ _ Href Hf)
    as (h & b & Ho & _ & _ & Hro & _).
  destruct Href as [Hopts _].
  apply set_eq. intros x. rewrite !elem_of_dom.
  destruct (decide (x = o)) as [-> | Hne].
  - rewrite Ho, Hopts. split; eauto.
  - now rewrite (Hro x Hne).
Qed.

Lemma search_falsy (svc : ElasticSearchService) (searchTerm : string)
    (customConfig : option Supplied) (σ : Store) :
  supplied_truthy customConfig = false →
  search svc searchTerm customConfig σ = search svc searchTerm None σ.
Proof. intros H. unfold search. now rewrite H. Qed.

(** C9, as the code has it. Given an object as custom configuration,
    [search] is [fetchJSON] on the search url and that very object,
    whatever the term, and no options object is made. Given none, or a
    value that is falsy ([null], [false], [0], the empty string), it makes
    an options object from the term and posts the query to the search url,
    with the header [Content-Type: application/json] and the JSON text of
    the query as payload. *)
Theorem search_routes (svc : ElasticSearchService) (searchTerm : string) (σ : Store) :
  (∀ config opts,
     refers_to σ config opts →
     ∃ run,
       search svc searchTerm (Some (supplied_object config)) σ = Some run ∧
       fetchJSON (_searchURL svc) (Some config) σ = Some run ∧
       (∀ otherTerm,
          search svc otherTerm (Some (supplied_object config)) σ = Some run) ∧
       dom (request_options (store_after run)) = dom (request_options σ)) ∧
  (∀ customConfig,
     supplied_truthy customConfig = false →
     ∃ run,
       search svc searchTerm customConfig σ = Some run ∧
       promise run = None ∧
       xhr_calls run
       = [xhr_open POST (_searchURL svc) None;
          xhr_setRequestHeader "Content-Type" (VStr "application/json");
          xhr_send (VStr (query_text searchTerm))] ∧
       dom (request_options (store_after run))
       = {[ fresh (dom (request_options σ)) ]} ∪ dom (request_options σ)).
Proof.
  split.
  - intros config opts Href.
    destruct (fetchJSON_eq (_searchURL svc) _ _ _ Href) as (h & σ' & Hf & Ho & Hs & _).
    destruct (refers_to_after_fetchJSON _ _ _ _ _ Ho Hs) as [Href' _].
    destruct (fetch_run (_searchURL svc) _ _ _ Href') as (run & Hrun & _).
    rewrite <- Hf in Hrun.
    exists run. split; [exact Hrun|]. split; [exact Hrun|].
    split; [intros otherTerm; exact Hrun|].
    exact (fetchJSON_dom _ _ _ _ _ Href Hrun).
  - intros customConfig Hfalsy. rewrite (search_falsy _ _ _ _ Hfalsy).
    destruct (search_default_run svc searchTerm σ) as (run & Hrun & Hp & Hcalls).
    exists run. split; [exact Hrun|]. split; [exact Hp|]. split.
    + rewrite Hcalls. unfold JSON_stringify.
      now rewrite getDefaultConfig_JSON.
    + unfold search in Hrun. cbn [supplied_truthy] in Hrun.
      pose proof (new_options_refers_to (getDefaultConfig searchTerm) σ eq_refl)
        as Href.
      destruct (new_options (getDefaultConfig searchTerm) σ) as [o σ1] eqn:Hnew.
      cbn [fst snd] in Href.
      rewrite (fetchJSON_dom _ _ _ _ _ Href Hrun).
      unfold new_options in Hnew. injection Hnew as <- <-.
      cbn [request_options]. apply dom_insert_L.
Qed.

(** A caller passes its own options, [{method: 'PUT', body: 'a'}], with
    the term [chair]: the term goes nowhere. Another passes [0]: the query
    for [chair] is posted. *)
Lemma search_routes_witness :
  (∃ run,
     search {| _searchURL := "https://e/_search" |} "chair"
       (Some (supplied_object 1%positive))
       (store_of {| method := Some PUT; headers := None; body := VStr "a";
                    credentials := None |} [])
     = Some run ∧
     xhr_calls run
     = [xhr_open PUT "https://e/_search" None;
        xhr_setRequestHeader "Content-Type" (VStr "application/json");
        xhr_send (VStr "a")]) ∧
  (∃ run,
     search {| _searchURL := "https://e/_search" |} "chair"
       (Some (supplied_number 0)) empty_store
     = Some run ∧
     promise run = None ∧
     xhr_calls run
     = [xhr_open POST "https://e/_search" None;
        xhr_setRequestHeader "Content-Type" (VStr "application/json");
        xhr_send
          (VStr ("{" +:+ in_quotes "query" +:+ ":{"
                     +:+ in_quotes "match" +:+ ":{"
                     +:+ in_quotes "url" +:+ ":" +:+ in_quotes "chair" +:+ "}},"
                     +:+ in_quotes "highlight" +:+ ":{"
                     +:+ in_quotes "pre_tags" +:+ ":["
                     +:+ in_quotes "<strong>" +:+ "],"
                     +:+ in_quotes "post_tags" +:+ ":["
                     +:+ in_quotes "</strong>" +:+ "],"
                     +:+ in_quotes "fields" +:+ ":{" +:+ in_quotes "*" +:+ ":{}},"
                     +:+ in_quotes "require_field_match" +:+ ":false}}"))]).
Proof.
  split.
  - destruct (proj1 (search_routes {| _searchURL := "https://e/_search" |} "chair"
                       (store_of {| method := Some PUT; headers := None;
                                    body := VStr "a"; credentials := None |} []))
                1%positive
                {| method := Some PUT; headers := None; body := VStr "a";
                   credentials := None |}
                (conj eq_refl I))
      as (run & Hsearch & HfetchJSON & _).
    exists run. split; [exact Hsearch|].
    vm_compute in HfetchJSON. injection HfetchJSON as <-. reflexivity.
  - destruct (proj2 (search_routes {| _searchURL := "https://e/_search" |} "chair"
                       empty_store)
                (Some (supplied_number 0)) eq_refl)
      as (run & Hsearch & Hp & Hcalls & _).
    exists run. split; [exact Hsearch|]. split; [exact Hp|]. exact Hcalls.
Defined.

(** C9, as stated, fails: a custom configuration that is supplied but
    falsy, here [null], is not passed on. The search is the one made with
    no configuration at all: the query for the term is built and posted. *)
Lemma search_null_config_builds_query :
  search {| _searchURL := "https://e/_search" |} "chair"
    (Some supplied_null) empty_store
  = search {| _searchURL := "https://e/_search" |} "chair" None empty_store ∧
  xhr_calls <$> search {| _searchURL := "https://e/_search" |} "chair"
                  (Some supplied_null) empty_store
  = Some [xhr_open POST "https://e/_search" None;
          xhr_setRequestHeader "Content-Type" (VStr "application/json");
          xhr_send (VStr (query_text "chair"))] ∧
  query_text "chair"
  = "{" +:+ in_quotes "query" +:+ ":{"
        +:+ in_quotes "match" +:+ ":{"
        +:+ in_quotes "url" +:+ ":" +:+ in_quotes "chair" +:+ "}},"
        +:+ in_quotes "highlight" +:+ ":{"
        +:+ in_quotes "pre_tags" +:+ ":[" +:+ in_quotes "<strong>" +:+ "],"
        +:+ in_quotes "post_tags" +:+ ":[" +:+ in_quotes "</strong>" +:+ "],"
        +:+ in_quotes "fields" +:+ ":{" +:+ in_quotes "*" +:+ ":{}},"
        +:+ in_quotes "require_field_match" +:+ ":false}}".
Proof. repeat split; vm_compute; reflexivity. Qed.

(** The Enter key, and no other, starts a search: the controller then
    posts the query built from the value of the input to [requestURL], as
    JSON. *)
Theorem keydown_enter_posts_query
    (value innerHTML : string) (keyCode : Z) (σ : Store) :
  (keyCode ≠ 13%Z → keydown (new_SearchController value innerHTML) keyCode σ = None) ∧
  (keyCode = 13%Z →
   ∃ run,
     keydown (new_SearchController value innerHTML) keyCode σ = Some run ∧
     promise run = None ∧
     xhr_calls run
     = [xhr_open POST requestURL None;
        xhr_setRequestHeader "Content-Type" (VStr "application/json");
        xhr_send (JSON_stringify (body (getDefaultConfig value)))]).
Proof.
  unfold keydown. split.
  - intros Hk. apply Z.eqb_neq in Hk. now rewrite Hk.
  - intros ->. cbn [Z.eqb Pos.eqb].
    exact (search_default_run (set_searchUrl requestURL initial_service) value σ).
Qed.

Lemma keydown_enter_posts_query_witness :
  ∃ run,
    keydown (new_SearchController "chair" "{{count}} hits") 13 empty_store = Some run ∧
    promise run = None ∧
    xhr_calls run
    = [xhr_open POST requestURL None;
       xhr_setRequestHeader "Content-Type" (VStr "application/json");
       xhr_send (JSON_stringify (body (getDefaultConfig "chair")))].
Proof.
  apply (proj2 (keydown_enter_posts_query "chair" "{{count}} hits" 13 empty_store)).
  reflexivity.
Defined.

Section SearchController_facts.

Variable template : string → JsVal → string.
Variable cannot_read : JsVal → string → string.

Lemma with_lines_nil (c : SearchController) : with_lines [] c = c.
Proof. destruct c. unfold with_lines. simpl. now rewrite List.app_nil_r. Qed.

Lemma with_lines_app (l l' : list (list JsVal)) (c : SearchController) :
  with_lines l' (with_lines l c) = with_lines (l ++ l') c.
Proof. unfold with_lines. simpl. now rewrite List.app_assoc. Qed.

Lemma fold_console_log (kvs : list (string * JsVal)) (c : SearchController) :
  fold_left (fun c kv => console_log [VStr (fst kv); snd kv] c) kvs c
  = with_lines (List.map (fun kv => [VStr (fst kv); snd kv]) kvs) c.
Proof.
  revert c. induction kvs as [|kv kvs IH]; intros c; simpl.
  - now rewrite with_lines_nil.
  - rewrite IH. change (console_log [VStr (fst kv); snd kv] c)
      with (with_lines [[VStr (fst kv); snd kv]] c).
    now rewrite with_lines_app.
Qed.

Lemma log_highlight_object (props : list (string * JsVal)) (c : SearchController) :
  is_hit (VObj props) = true →
  log_highlight cannot_read (VObj props) c
  = (with_lines (highlight_lines (VObj props)) c, Normal).
Proof.
  intros Hhit. unfold log_highlight. simpl. rewrite fold_console_log.
  simpl in Hhit. unfold for_in.
  destruct (get_property "highlight" props); try reflexivity. discriminate.
Qed.

Lemma log_hits_objects (pre hits : list JsVal) (c : SearchController) :
  forallb is_hit hits = true →
  log_hits cannot_read (VArr (pre ++ hits))
    (seqZ (Z.of_nat (List.length pre)) (Z.of_nat (List.length hits))) c
  = (with_lines (List.concat (List.map highlight_lines hits)) c, Normal).
Proof.
  revert pre c. induction hits as [|hit hits IH]; intros pre c Hall.
  - simpl. now rewrite with_lines_nil.
  - simpl in Hall. apply andb_true_iff in Hall as [Hhit Hall].
    destruct hit as [| | | | |props|]; try discriminate.
    rewrite seqZ_cons by (simpl; lia).
    cbn [log_hits element]. rewrite Nat2Z.id.
    rewrite list_lookup_middle by reflexivity.
    rewrite (log_highlight_object _ _ Hhit).
    replace (Z.succ (Z.of_nat (List.length pre)))
      with (Z.of_nat (List.length (pre ++ [VObj props])))
      by (rewrite List.length_app; simpl; lia).
    replace (Z.pred (Z.of_nat (List.length (VObj props :: hits))))
      with (Z.of_nat (List.length hits)) by (simpl; lia).
    replace (pre ++ VObj props :: hits)%list
      with ((pre ++ [VObj props]) ++ hits)%list
      by (now rewrite <- List.app_assoc).
    rewrite (IH _ _ Hall), with_lines_app. reflexivity.
Qed.

(** A result of the expected shape, in which every hit is an object whose
    [highlight], if any, is not a string: the result element is given the
    markup [template] makes of its markup with the total as [count], and
    the console gets, hit by hit in order, one line for each highlighted
    field with its fragments; nothing is thrown. *)
Theorem on_settled_renders_result
    (c : SearchController) (props hprops : list (string * JsVal))
    (hits : list JsVal) :
  get_property "hits" props = VObj hprops →
  get_property "hits" hprops = VArr hits →
  forallb is_hit hits = true →
  on_settled template cannot_read (Resolved (VObj props)) c
  = Some
      (with_lines (List.concat (List.map highlight_lines hits))
         (assign_innerHTML
            (template (_searchResult_innerHTML c)
               (VObj [("count", get_property "total" hprops)])) c),
       Normal).
Proof.
  intros Hhits Hlist Hall. unfold on_settled, on_result. simpl.
  rewrite Hhits. simpl. rewrite Hlist. simpl.
  unfold indices. simpl.
  rewrite (log_hits_objects [] hits _ Hall). reflexivity.
Qed.

End SearchController_facts.

Lemma on_settled_renders_result_witness :
  on_settled (fun html data => html +:+ ToString (get_property "count" (own_properties data)))
    (fun _ name => name)
    (Resolved
       (VObj [("hits",
               VObj [("total", VNum 2);
                     ("hits",
                      VArr [VObj [("highlight",
                                   VObj [("url", VArr [VStr "<strong>chair</strong>"])])];
                            VObj [("_id", VStr "7")]])])]))
    (new_SearchController "chair" "hits: ")
  = Some
      ({| _searchInput_value := "chair";
          _searchResult_innerHTML := "hits: 2";
          _elasticSearchService := set_searchUrl requestURL initial_service;
          console := [[VStr "url"; VArr [VStr "<strong>chair</strong>"]]] |},
       Normal).
Proof.
  apply (on_settled_renders_result
           (fun html data => html +:+ ToString (get_property "count" (own_properties data)))
           (fun _ name => name)
           (new_SearchController "chair" "hits: ")
           [("hits",
             VObj [("total", VNum 2);
                   ("hits",
                    VArr [VObj [("highlight",
                                 VObj [("url", VArr [VStr "<strong>chair</strong>"])])];
                          VObj [("_id", VStr "7")]])])]
           [("total", VNum 2);
            ("hits",
             VArr [VObj [("highlight",
                          VObj [("url", VArr [VStr "<strong>chair</strong>"])])];
                   VObj [("_id", VStr "7")]])]
           [VObj [("highlight",
                   VObj [("url", VArr [VStr "<strong>chair</strong>"])])];
            VObj [("_id", VStr "7")]]).
  - reflexivity.
  - reflexivity.
  - reflexivity.
Defined.

Section SearchController_failures.

Variable template : string → JsVal → string.
Variable cannot_read : JsVal → string → string.
Variable JSON_parse : string → option JsVal.

(** When the request of a search fails with a status of 400 or more or
    of 0, is aborted or times out, the controller writes one line to the
    console, the fixed text followed by the response text or by the
    message of the abort or timeout, and leaves the result element as it
    is; nothing is thrown. *)
Theorem on_settled_logs_failure
    (run : FetchRun) (ev : XhrEvent) (c : SearchController) :
  promise run = None →
  match ev with
  | onload status _ _ => (400 ≤ status ∨ status = 0)%Z
  | onerror _ => False
  | onabort | ontimeout => True
  end →
  on_settled template cannot_read (fetchJSON_outcome JSON_parse run ev) c
  = Some
      (with_lines
         [[VStr ("An error occured during the elastic search service: "
                 +:+ match ev with
                     | onload _ responseText _ => responseText
                     | onabort => "Network request aborted"
                     | _ => "Network request timed out"
                     end)]] c,
       Normal).
Proof.
  intros Hp Hev. unfold fetchJSON_outcome, fetch_outcome. rewrite Hp.
  destruct ev as [status responseText response|error| |]; simpl in *;
    try contradiction; try reflexivity.
  assert ((status >=? 400)%Z || (status =? 0)%Z = true) as ->
    by (apply orb_true_iff; destruct Hev; [left | right]; lia).
  reflexivity.
Qed.

(** A network error whose event carries no error (the [error] of the
    event is [undefined] or [null]): reading [error.message] throws in the
    handler of [catch], so nothing is written to the console, the result
    element is as it was, and the TypeError is left unhandled. *)
Theorem on_settled_error_without_object
    (run : FetchRun) (error : JsVal) (c : SearchController) :
  promise run = None →
  error = VUndefined ∨ error = VNull →
  on_settled template cannot_read (fetchJSON_outcome JSON_parse run (onerror error)) c
  = Some (c, Throw (Thrown TypeError (cannot_read error "message"))).
Proof.
  intros Hp He. unfold fetchJSON_outcome, fetch_outcome. rewrite Hp.
  destruct He as [-> | ->]; reflexivity.
Qed.

(** A result whose [hits] has a [total] but no list of hits: the result
    element is rendered with the total first, then reading the [length]
    of the missing list throws, and the handler of [catch] writes that
    error to the console. *)
Theorem on_settled_result_without_hits
    (c : SearchController) (props hprops : list (string * JsVal)) :
  get_property "hits" props = VObj hprops →
  get_property "hits" hprops = VUndefined →
  on_settled template cannot_read (Resolved (VObj props)) c
  = Some
      (with_lines
         [[VStr ("An error occured during the elastic search service: "
                 +:+ cannot_read VUndefined "length")]]
         (assign_innerHTML
            (template (_searchResult_innerHTML c)
               (VObj [("count", get_property "total" hprops)])) c),
       Normal).
Proof.
  intros Hhits Hlist. unfold on_settled, on_result. simpl.
  rewrite Hhits. simpl. rewrite Hlist. reflexivity.
Qed.

End SearchController_failures.

Lemma on_settled_logs_failure_witness :
  on_settled (fun html _ => html) (fun _ name => name)
    (fetchJSON_outcome (fun _ => None)
       {| store_after := empty_store; xhr_calls := []; promise := None |}
       (onload 500 "Internal Error" None))
    (new_SearchController "chair" "hits: ")
  = Some
      (with_lines
         [[VStr "An error occured during the elastic search service: Internal Error"]]
         (new_SearchController "chair" "hits: "),
       Normal).
Proof.
  apply (on_settled_logs_failure (fun html _ => html) (fun _ name => name)
           (fun _ => None)
           {| store_after := empty_store; xhr_calls := []; promise := None |}
           (onload 500 "Internal Error" None)
           (new_SearchController "chair" "hits: ")).
  - reflexivity.
  - left. lia.
Defined.

Lemma on_settled_error_without_object_witness :
  on_settled (fun html _ => html) (fun _ name => name)
    (fetchJSON_outcome (fun _ => None)
       {| store_after := empty_store; xhr_calls := []; promise := None |}
       (onerror VUndefined))
    (new_SearchController "chair" "hits: ")
  = Some (new_SearchController "chair" "hits: ",
          Throw (Thrown TypeError "message")).
Proof.
  apply (on_settled_error_without_object (fun html _ => html) (fun _ name => name)
           (fun _ => None)
           {| store_after := empty_store; xhr_calls := []; promise := None |}
           VUndefined (new_SearchController "chair" "hits: ")).
  - reflexivity.
  - left. reflexivity.
Defined.

Lemma on_settled_result_without_hits_witness :
  on_settled (fun html data => html +:+ ToString (get_property "count" (own_properties data)))
    (fun _ name => name)
    (Resolved (VObj [("hits", VObj [("total", VNum 3)])]))
    (new_SearchController "chair" "hits: ")
  = Some
      (with_lines
         [[VStr "An error occured during the elastic search service: length"]]
         (assign_innerHTML "hits: 3" (new_SearchController "chair" "hits: ")),
       Normal).
Proof.
  apply (on_settled_result_without_hits
           (fun html data => html +:+ ToString (get_property "count" (own_properties data)))
           (fun _ name => name)
           (new_SearchController "chair" "hits: ")
           [("hits", VObj [("total", VNum 3)])] [("total", VNum 3)]).
  - reflexivity.
  - reflexivity.
Defined.
